(** * Project Samarth Q&A: entity extraction and answer generation

    A shallow embedding of [src/app.py]: the keyword-driven entity
    extractor, the statistics it computes inline, the three report
    generators and the dispatcher, followed by the properties that the
    specification states about them.

    Modelling conventions.
    - A Python [str] is a [string]; the questions considered are ASCII
      text, so [str.lower] and [str.title] act on the letters A-Z / a-z
      and the regular expression classes are the ASCII ones.  Text that
      the program only emits is kept as its UTF-8 bytes.  The year
      pattern is also given on arbitrary text, as code points, with the
      Unicode table of alphanumeric characters as a parameter.
    - A Python [dict] keyed by strings is an association list in
      insertion order ([dict_set] updates in place or appends), because
      the code relies on the order of [.values()] and [.items()].
    - A Python [int] is a [Z].  A Python [float] is an exact rational
      kept in lowest terms ([Qred]); the rounding of binary floating
      point and [OverflowError] are not modelled.  The figures of the
      program's own tables are computed exactly by both.  The
      properties stated for other tables take their figures within
      [in_float_range], where nothing overflows, and state no digit
      that depends on rounding.
    - An exception is a value [Raise e] of the [result] type; the
      subscripts, [dict] look-ups and divisions that can raise in Python
      can raise here. *)

From Stdlib Require Import List String Ascii Bool ZArith QArith Qabs Qround Qreduction Lia.
From Stdlib Require Import DecimalString Permutation Sorted.
Import ListNotations.

Local Open Scope string_scope.
Local Open Scope Z_scope.

(* ------------------------------------------------------------------ *)
(** ** Exceptions *)

Inductive exn : Type :=
| KeyError (key : string)
| IndexError
| ZeroDivisionError.

Inductive result (A : Type) : Type :=
| Ok (a : A)
| Raise (e : exn).

Arguments Ok {A} a.
Arguments Raise {A} e.

Definition bind {A B : Type} (m : result A) (f : A -> result B) : result B :=
  match m with
  | Ok a => f a
  | Raise e => Raise e
  end.

Notation "x <- m ;; k" := (bind m (fun x => k))
  (at level 61, m at next level, right associativity).

(** A [for] loop whose body may raise, threading the variables it
    updates. *)
Fixpoint for_each {A S : Type} (body : S -> A -> result S) (l : list A) (s : S)
  : result S :=
  match l with
  | [] => Ok s
  | x :: l' => s' <- body s x ;; for_each body l' s'
  end.

(* ------------------------------------------------------------------ *)
(** ** Text *)

Definition LF : string := String (ascii_of_nat 10) "".

Definition in_range (lo hi : N) (c : ascii) : bool :=
  let n := N_of_ascii c in (N.leb lo n && N.leb n hi)%bool.

Definition is_upper (c : ascii) : bool := in_range 65 90 c.
Definition is_lower (c : ascii) : bool := in_range 97 122 c.
Definition is_digit (c : ascii) : bool := in_range 48 57 c.
Definition is_alpha (c : ascii) : bool := (is_upper c || is_lower c)%bool.

Definition to_lower (c : ascii) : ascii :=
  if is_upper c then ascii_of_N (N_of_ascii c + 32) else c.

Definition to_upper (c : ascii) : ascii :=
  if is_lower c then ascii_of_N (N_of_ascii c - 32) else c.

(** [str.lower()] *)
Fixpoint lower (s : string) : string :=
  match s with
  | EmptyString => EmptyString
  | String c s' => String (to_lower c) (lower s')
  end.

(** [str.title()]: a letter is upper-cased when it does not follow a
    letter and lower-cased when it does. *)
Fixpoint title_from (previous_is_cased : bool) (s : string) : string :=
  match s with
  | EmptyString => EmptyString
  | String c s' =>
      String (if previous_is_cased then to_lower c else to_upper c)
             (title_from (is_alpha c) s')
  end.

Definition title (s : string) : string := title_from false s.

(** [needle in hay] on strings. *)
Fixpoint str_contains (hay needle : string) {struct hay} : bool :=
  match hay with
  | EmptyString => prefix needle EmptyString
  | String _ hay' => (prefix needle hay || str_contains hay' needle)%bool
  end.

(** [sep.join(l)] *)
Definition join (sep : string) (l : list string) : string := String.concat sep l.

(** [x in l] on a list of strings. *)
Definition list_contains (l : list string) (x : string) : bool :=
  existsb (String.eqb x) l.

(** [repr] of a string: single quotes, or double quotes when the string
    has a single quote and no double quote; the quote in use and the
    backslash are escaped, tab, line feed and carriage return are
    written [\t], [\n], [\r], and the other control characters
    [\xhh].  Text beyond ASCII is taken to be printable and is kept. *)
Definition single_quote : ascii := ascii_of_nat 39.
Definition double_quote : ascii := ascii_of_nat 34.
Definition backslash : ascii := ascii_of_nat 92.

Definition hex_digit (n : N) : ascii :=
  if N.ltb n 10 then ascii_of_N (48 + n) else ascii_of_N (87 + n).

Definition repr_char (quote c : ascii) : string :=
  let n := N_of_ascii c in
  if (Ascii.eqb c quote || Ascii.eqb c backslash)%bool then String backslash (String c "")
  else if N.eqb n 9 then String backslash "t"
  else if N.eqb n 10 then String backslash "n"
  else if N.eqb n 13 then String backslash "r"
  else if (N.ltb n 32 || N.eqb n 127)%bool
       then String backslash
              (String "x" (String (hex_digit (N.div n 16)) (String (hex_digit (N.modulo n 16)) "")))
  else String c "".

Fixpoint repr_chars (quote : ascii) (s : string) : string :=
  match s with
  | EmptyString => EmptyString
  | String c s' => repr_char quote c ++ repr_chars quote s'
  end.

Definition repr_str (s : string) : string :=
  let quote :=
    if (str_contains s (String single_quote "")
        && negb (str_contains s (String double_quote "")))%bool
    then double_quote else single_quote in
  String quote (repr_chars quote s ++ String quote "").

(** [repr] of a list of strings, as an f-string prints it. *)
Definition repr_list (l : list string) : string :=
  "[" ++ join ", " (map repr_str l) ++ "]".

(* ------------------------------------------------------------------ *)
(** ** Dictionaries *)

Definition dict (V : Type) : Type := list (string * V).

Fixpoint dict_get {V : Type} (d : dict V) (key : string) : option V :=
  match d with
  | [] => None
  | (k, v) :: d' => if String.eqb k key then Some v else dict_get d' key
  end.

Definition dict_has {V : Type} (d : dict V) (key : string) : bool :=
  match dict_get d key with Some _ => true | None => false end.

(** [d[key]] *)
Definition dict_item {V : Type} (d : dict V) (key : string) : result V :=
  match dict_get d key with
  | Some v => Ok v
  | None => Raise (KeyError key)
  end.

(** [d.get(key, default)] *)
Definition dict_get_default {V : Type} (d : dict V) (key : string) (default : V) : V :=
  match dict_get d key with Some v => v | None => default end.

(** [d[key] = v] *)
Fixpoint dict_set {V : Type} (d : dict V) (key : string) (v : V) : dict V :=
  match d with
  | [] => [(key, v)]
  | (k, w) :: d' =>
      if String.eqb k key then (k, v) :: d' else (k, w) :: dict_set d' key v
  end.

Definition dict_keys {V : Type} (d : dict V) : list string := map fst d.
Definition dict_values {V : Type} (d : dict V) : list V := map snd d.

(* ------------------------------------------------------------------ *)
(** ** Numbers *)

Definition sum (l : list Z) : Z := fold_left Z.add l 0.

Definition len {A : Type} (l : list A) : Z := Z.of_nat (List.length l).

(** [a / b] (true division). *)
Definition truediv (a b : Q) : result Q :=
  if Qeq_bool b 0 then Raise ZeroDivisionError else Ok (Qred (a / b)).

Definition fsub (a b : Q) : Q := Qred (a - b).
Definition fmul (a b : Q) : Q := Qred (a * b).
Definition fadd (a b : Q) : Q := Qred (a + b).

(** [x > 0] *)
Definition is_positive (x : Q) : bool := negb (Qle_bool x 0).

(** [l[0]] and [l[-1]] *)
Definition first_item {A : Type} (l : list A) : result A :=
  match l with
  | [] => Raise IndexError
  | x :: _ => Ok x
  end.

Fixpoint last_item {A : Type} (l : list A) : result A :=
  match l with
  | [] => Raise IndexError
  | [x] => Ok x
  | _ :: l' => last_item l'
  end.

(** Integers small enough that no operation of the program on them
    leaves the range of a binary float: with values of at most 10^150
    in magnitude, the means, the differences and the squares of
    differences that the program computes all stay below the largest
    float, so that [OverflowError], which this development does not
    model, cannot occur. *)
Definition in_float_range (value : Z) : bool := Z.abs value <=? 10 ^ 150.

Definition series_in_float_range {K : Type} (series : list (K * Z)) : bool :=
  forallb (fun item => in_float_range (snd item)) series.

(* ------------------------------------------------------------------ *)
(** ** Fixed-point formatting *)

(** Round to the nearest integer, ties to even. *)
Definition round_half_even (x : Q) : Z :=
  let f := Qfloor x in
  let twice := Qfloor (2 * x) in
  if Qeq_bool (inject_Z twice) (2 * x) then
    (* x is a multiple of one half *)
    if Z.even twice then f else if Z.even f then f else f + 1
  else if Z.even twice then f else f + 1.

Definition decimal (n : Z) : string := NilZero.string_of_uint (N.to_uint (Z.to_N n)).

Fixpoint zeros (n : nat) : string :=
  match n with
  | O => ""
  | S n' => "0" ++ zeros n'
  end.

Definition pad_left_zeros (width : nat) (s : string) : string :=
  zeros (width - String.length s) ++ s.

(** Insert a comma before every complete group of three trailing
    digits. *)
Fixpoint group_thousands (digits : list ascii) : string :=
  match digits with
  | [] => ""
  | c :: rest =>
      String c ((if (Nat.eqb (Nat.modulo (List.length rest) 3) 0
                     && negb (Nat.eqb (List.length rest) 0))%bool
                 then "," else "") ++ group_thousands rest)
  end.

(** [format(x, '.<prec>f')], and with [grouping] [format(x, ',.<prec>f')]. *)
Definition format_fixed (grouping : bool) (prec : nat) (x : Q) : string :=
  let scale := Z.pow 10 (Z.of_nat prec) in
  let scaled := round_half_even (Qabs x * inject_Z scale) in
  let int_digits := decimal (scaled / scale) in
  let int_part :=
    if grouping then group_thousands (list_ascii_of_string int_digits)
    else int_digits in
  let frac_part :=
    match prec with
    | O => ""
    | _ => "." ++ pad_left_zeros prec (decimal (scaled mod scale))
    end in
  (if Qle_bool 0 x then "" else "-") ++ int_part ++ frac_part.

Definition fmt_0f : Q -> string := format_fixed false 0.
Definition fmt_1f : Q -> string := format_fixed false 1.
Definition fmt_comma_0f : Q -> string := format_fixed true 0.

(* ------------------------------------------------------------------ *)
(** ** The static dataset *)

(** An entry of [AGRICULTURAL_DATA]: production (thousand tonnes) by
    crop and year, and the water requirement label of each crop. *)
Record StateAgriculture : Type := {
  crops_of : dict (dict Z);
  water_requirements_of : dict string
}.

(** An entry of [CLIMATE_DATA]. *)
Record StateClimate : Type := {
  rainfall_of : dict Z;
  drought_years_of : list string;
  avg_temperature_of : Q;
  climate_zone_of : string
}.

Record DataSource : Type := {
  name : string;
  url : string;
  description : string
}.

Definition AGRICULTURAL_DATA : dict StateAgriculture :=
  [ ("rajasthan",
     {| crops_of :=
          [ ("Bajra", [("2018", 4500); ("2019", 4200); ("2020", 3800); ("2021", 3500); ("2022", 4000)]);
            ("Wheat", [("2018", 3200); ("2019", 3100); ("2020", 2800); ("2021", 2500); ("2022", 2700)]);
            ("Groundnut", [("2018", 800); ("2019", 750); ("2020", 700); ("2021", 650); ("2022", 720)]);
            ("Guar", [("2018", 600); ("2019", 620); ("2020", 580); ("2021", 550); ("2022", 590)]);
            ("Rice", [("2018", 1200); ("2019", 1100); ("2020", 900); ("2021", 800); ("2022", 850)]) ];
        water_requirements_of :=
          [ ("Bajra", "Low (350-400mm)");
            ("Wheat", "High (500-600mm)");
            ("Groundnut", "Medium (400-500mm)");
            ("Guar", "Very Low (250-300mm)");
            ("Rice", "Very High (1200-1500mm)") ] |});
    ("punjab",
     {| crops_of :=
          [ ("Wheat", [("2018", 18000); ("2019", 17500); ("2020", 17000); ("2021", 16500); ("2022", 16800)]);
            ("Rice", [("2018", 16000); ("2019", 15800); ("2020", 15500); ("2021", 15200); ("2022", 15400)]);
            ("Cotton", [("2018", 2000); ("2019", 1900); ("2020", 1850); ("2021", 1800); ("2022", 1820)]);
            ("Bajra", [("2018", 800); ("2019", 750); ("2020", 700); ("2021", 650); ("2022", 680)]) ];
        water_requirements_of :=
          [ ("Wheat", "High (500-600mm)");
            ("Rice", "Very High (1200-1500mm)");
            ("Cotton", "Medium (400-500mm)");
            ("Bajra", "Low (350-400mm)") ] |}) ].

Definition CLIMATE_DATA : dict StateClimate :=
  [ ("rajasthan",
     {| rainfall_of := [("2018", 450); ("2019", 380); ("2020", 320); ("2021", 290); ("2022", 410)];
        drought_years_of := ["2020"; "2021"];
        avg_temperature_of := (57 # 2)%Q;
        climate_zone_of := "Arid" |});
    ("punjab",
     {| rainfall_of := [("2018", 650); ("2019", 620); ("2020", 580); ("2021", 590); ("2022", 610)];
        drought_years_of := [];
        avg_temperature_of := (24 # 1)%Q;
        climate_zone_of := "Semi-Arid" |}) ].

Definition DATA_SOURCES : dict DataSource :=
  [ ("agriculture",
     {| name := "Ministry of Agriculture - Crop Production Statistics";
        url := "https://data.gov.in/resource/all-india-season-wise-crop-production-statistics";
        description := "State-wise and crop-wise production data from 2018-2022" |});
    ("climate",
     {| name := "India Meteorological Department - Rainfall Data";
        url := "https://data.gov.in/resource/district-wise-rainfall-normal";
        description := "Historical rainfall patterns and climate data from 2018-2022" |}) ].

(** Tables all of whose figures are in the range of [in_float_range]. *)
Definition production_in_float_range (agricultural_data : dict StateAgriculture) : bool :=
  forallb (fun state =>
             forallb (fun crop => series_in_float_range (snd crop))
                     (crops_of (snd state)))
          agricultural_data.

Definition rainfall_in_float_range (climate_data : dict StateClimate) : bool :=
  forallb (fun state => series_in_float_range (rainfall_of (snd state))) climate_data.

Definition tables_in_float_range (agricultural_data : dict StateAgriculture)
    (climate_data : dict StateClimate) : bool :=
  (production_in_float_range agricultural_data
   && rainfall_in_float_range climate_data)%bool.

(* ------------------------------------------------------------------ *)
(** ** Entity extraction *)

Record Entities : Type := {
  states : list string;
  crops : list string;
  years : list string;
  metrics : list string;
  comparison_type : option string
}.

Definition state_keywords : dict (list string) :=
  [ ("rajasthan", ["rajasthan"; "raj"]);
    ("punjab", ["punjab"]);
    ("gujarat", ["gujarat"]);
    ("haryana", ["haryana"]) ].

Definition crop_keywords : dict (list string) :=
  [ ("Bajra", ["bajra"; "pearl millet"; "millet"]);
    ("Wheat", ["wheat"]);
    ("Rice", ["rice"; "paddy"]);
    ("Cotton", ["cotton"]);
    ("Groundnut", ["groundnut"; "peanut"]);
    ("Guar", ["guar"; "cluster bean"]) ].

(** [any(keyword in question_lower for keyword in keywords)] *)
Definition any_keyword (question_lower : string) (keywords : list string) : bool :=
  existsb (fun keyword => str_contains question_lower keyword) keywords.

(** The loop over a keyword table: the canonical name of every entry
    one of whose keywords occurs, in the order of the table. *)
Fixpoint matched_names (table : dict (list string)) (question_lower : string)
  : list string :=
  match table with
  | [] => []
  | (canonical, keywords) :: table' =>
      if any_keyword question_lower keywords
      then canonical :: matched_names table' question_lower
      else matched_names table' question_lower
  end.

(** *** The year pattern [\b(201[8-9]|202[0-4])\b] on ASCII questions *)

(** [\w] on ASCII characters *)
Definition is_word_char (c : ascii) : bool :=
  (is_alpha c || is_digit c || Ascii.eqb c "_")%bool.

Definition is_word (c : option ascii) : bool :=
  match c with Some c => is_word_char c | None => false end.

(** [\b] between the character before the position and the one at it;
    [None] stands for the start or the end of the text. *)
Definition word_boundary (before after : option ascii) : bool :=
  xorb (is_word before) (is_word after).

Definition head_char (s : string) : option ascii :=
  match s with EmptyString => None | String c _ => Some c end.

(** A sequence of character classes at the start of [s]: the text it
    matches and the text that follows. *)
Fixpoint match_classes (classes : list (ascii -> bool)) (s : string)
  : option (string * string) :=
  match classes with
  | [] => Some ("", s)
  | class :: classes' =>
      match s with
      | EmptyString => None
      | String c s' =>
          if class c then
            match match_classes classes' s' with
            | Some (matched, rest) => Some (String c matched, rest)
            | None => None
            end
          else None
      end
  end.

Definition is_char (x c : ascii) : bool := Ascii.eqb c x.

(** [201[8-9]] and [202[0-4]] *)
Definition year_201x : list (ascii -> bool) :=
  [is_char "2"; is_char "0"; is_char "1"; in_range 56 57].
Definition year_202x : list (ascii -> bool) :=
  [is_char "2"; is_char "0"; is_char "2"; in_range 48 52].

Fixpoint last_char (s : string) : option ascii :=
  match s with
  | EmptyString => None
  | String c EmptyString => Some c
  | String _ s' => last_char s'
  end.

(** One alternative of the group followed by the closing [\b]. *)
Definition match_alternative (classes : list (ascii -> bool)) (s : string)
  : option string :=
  match match_classes classes s with
  | Some (group, rest) =>
      if word_boundary (last_char group) (head_char rest) then Some group else None
  | None => None
  end.

(** A match of the whole pattern at a position preceded by [before]:
    the opening [\b], then the first alternative that leads to a match. *)
Definition match_year (before : option ascii) (s : string) : option string :=
  if word_boundary before (head_char s) then
    match match_alternative year_201x s with
    | Some group => Some group
    | None => match_alternative year_202x s
    end
  else None.

(** [re.findall] for the year pattern: try each position from left to
    right; after a match resume behind it, which [skip] counts down. *)
Fixpoint findall_years (before : option ascii) (skip : nat) (s : string)
  : list string :=
  match s with
  | EmptyString => []
  | String c s' =>
      match skip with
      | S skip' => findall_years (Some c) skip' s'
      | O =>
          match match_year before s with
          | Some group => group :: findall_years (Some c) 3 s'
          | None => findall_years (Some c) 0 s'
          end
      end
  end.

Definition re_findall_years (question : string) : list string :=
  findall_years None 0 question.

Definition extract_entities (question : string) : Entities :=
  let question_lower := lower question in
  let mentions := str_contains question_lower in
  {| states := matched_names state_keywords question_lower;
     crops := matched_names crop_keywords question_lower;
     years := re_findall_years question;
     metrics :=
       (if mentions "rainfall" then ["rainfall"] else [])
       ++ (if (mentions "production" || mentions "yield")%bool then ["production"] else [])
       ++ (if mentions "drought" then ["drought_resistance"] else [])
       ++ (if mentions "water" then ["water_requirement"] else []);
     comparison_type :=
       if mentions "compare" then Some "comparison"
       else if mentions "trend" then Some "trend"
       else if (mentions "argument" || mentions "promote")%bool then Some "policy_arguments"
       else None |}.

(* ------------------------------------------------------------------ *)
(** ** The year pattern on text beyond ASCII

    [re] works on the code points of a [str], and its [\b] follows
    Unicode: a word character is an alphanumeric character or the
    underscore.  Which code points are alphanumeric is a table of the
    Unicode database and not of this program; it is the parameter
    [is_alnum] here, standing for [str.isalnum] on one character.  The
    functions follow those of the ASCII questions above one by one. *)

Definition text : Type := list N.

(** The code points of an ASCII string. *)
Definition points_of (s : string) : text := map N_of_ascii (list_ascii_of_string s).

Definition point_is (x c : N) : bool := N.eqb c x.
Definition point_in (lo hi c : N) : bool := (N.leb lo c && N.leb c hi)%bool.

(** What [str.isalnum] is on the ASCII characters. *)
Definition ascii_alnum (c : N) : bool :=
  (point_in 48 57 c || point_in 65 90 c || point_in 97 122 c)%bool.

Fixpoint match_points (classes : list (N -> bool)) (s : text) : option (text * text) :=
  match classes with
  | [] => Some ([], s)
  | class :: classes' =>
      match s with
      | [] => None
      | c :: s' =>
          if class c then
            match match_points classes' s' with
            | Some (matched, rest) => Some (c :: matched, rest)
            | None => None
            end
          else None
      end
  end.

(** [201[8-9]] and [202[0-4]] *)
Definition year_201x_points : list (N -> bool) :=
  [point_is 50; point_is 48; point_is 49; point_in 56 57].
Definition year_202x_points : list (N -> bool) :=
  [point_is 50; point_is 48; point_is 50; point_in 48 52].

Fixpoint last_point (s : text) : option N :=
  match s with
  | [] => None
  | [c] => Some c
  | _ :: s' => last_point s'
  end.

Section YearPatternOnText.

Variable is_alnum : N -> bool.

(** [\w] *)
Definition is_word_point (c : N) : bool := (is_alnum c || N.eqb c 95)%bool.

Definition is_word_at (c : option N) : bool :=
  match c with Some c => is_word_point c | None => false end.

(** [\b] *)
Definition boundary_at (before after : option N) : bool :=
  xorb (is_word_at before) (is_word_at after).

Definition match_alternative_at (classes : list (N -> bool)) (s : text) : option text :=
  match match_points classes s with
  | Some (group, rest) =>
      if boundary_at (last_point group) (hd_error rest) then Some group else None
  | None => None
  end.

Definition match_year_at (before : option N) (s : text) : option text :=
  if boundary_at before (hd_error s) then
    match match_alternative_at year_201x_points s with
    | Some group => Some group
    | None => match_alternative_at year_202x_points s
    end
  else None.

Fixpoint findall_years_at (before : option N) (skip : nat) (s : text) : list text :=
  match s with
  | [] => []
  | c :: s' =>
      match skip with
      | S skip' => findall_years_at (Some c) skip' s'
      | O =>
          match match_year_at before s with
          | Some group => group :: findall_years_at (Some c) 3 s'
          | None => findall_years_at (Some c) 0 s'
          end
      end
  end.

(** [re.findall(r'\b(201[8-9]|202[0-4])\b', question)] *)
Definition re_findall_years_text (question : text) : list text :=
  findall_years_at None 0 question.

End YearPatternOnText.

(* ------------------------------------------------------------------ *)
(** ** Statistics *)

(** [sum] of floats, added from the left. *)
Definition fsum (l : list Q) : Q := fold_left fadd l 0%Q.

Definition calculate_variance (data : list Z) : result Q :=
  if len data =? 0 then Ok 0%Q
  else
    mean <- truediv (inject_Z (sum data)) (inject_Z (len data)) ;;
    truediv (fsum (map (fun x => let d := fsub (inject_Z x) mean in fmul d d) data))
            (inject_Z (len data)).

(** [sum(values) / len(values) if values else default] *)
Definition average_or (values : list Z) (default : Q) : result Q :=
  match values with
  | [] => Ok default
  | _ => truediv (inject_Z (sum values)) (inject_Z (len values))
  end.

(** [(values[-1] - values[0]) / len(values)], the trend both series of
    the trend report use. *)
Definition linear_trend (values : list Z) : result Q :=
  last <- last_item values ;;
  first <- first_item values ;;
  truediv (inject_Z (last - first)) (inject_Z (len values)).

(** [sorted] on strings, by insertion. *)
Fixpoint insert_sorted (x : string) (l : list string) : list string :=
  match l with
  | [] => [x]
  | y :: l' => if String.leb x y then x :: l else y :: insert_sorted x l'
  end.

Definition sorted (l : list string) : list string :=
  fold_right insert_sorted [] l.

(* ------------------------------------------------------------------ *)
(** ** Answers *)

Record CropStability : Type := {
  average_production : Q;
  production_variance : Q;
  drought_resilience : string
}.

Record StateComparison : Type := {
  rainfall : dict Z;
  crop_production : dict (dict Z);
  climate_zone : string
}.

(** The [data_points] payload; its shape depends on the generator. *)
Inductive DataPoints : Type :=
| PolicyPoints (average_rainfall : Q) (drought_years : list string)
    (zone : string) (crop_stability : dict CropStability)
    (water_requirements : dict string)
| ComparisonPoints (comparison_data : dict StateComparison)
| TrendPoints (rainfall_trend : dict Z) (crop_trends : dict (dict Z)).

Record Answer : Type := {
  answer : string;
  data_points : DataPoints;
  sources : list DataSource
}.

(** The [data] of one policy argument. *)
Inductive ArgumentData : Type :=
| ClimateFacts (average_rainfall : Q) (drought_years : list string) (zone : string)
| StabilityFacts (stability_data : dict CropStability)
| SavingsFacts (recommended_crops : dict string) (water_savings : string).

Record Argument : Type := {
  arg_title : string;
  arg_content : string;
  arg_data : ArgumentData
}.

Definition utf8 (bytes : list nat) : string :=
  string_of_list_ascii (map ascii_of_nat bytes).

(** The direction marks, byte for byte as the source file has them. *)
Definition mark_up : string := utf8 [195; 162; 226; 128; 160; 226; 128; 152]%nat.
Definition mark_down : string := utf8 [195; 162; 226; 128; 160; 226; 128; 156]%nat.
Definition icon_up : string := utf8 [195; 176; 197; 184; 226; 128; 156; 203; 134]%nat.
Definition icon_down : string := utf8 [195; 176; 197; 184; 226; 128; 156; 226; 128; 176]%nat.

(** [[DATA_SOURCES["agriculture"], DATA_SOURCES["climate"]]] *)
Definition cited_sources : result (list DataSource) :=
  agriculture <- dict_item DATA_SOURCES "agriculture" ;;
  climate <- dict_item DATA_SOURCES "climate" ;;
  Ok [agriculture; climate].

(** [entities["states"][0] if entities["states"] else "rajasthan"] *)
Definition target_state (entities : Entities) : string :=
  match states entities with
  | state :: _ => state
  | [] => "rajasthan"
  end.

(** [l if l else default] *)
Definition or_default (l default : list string) : list string :=
  match l with [] => default | _ => l end.

(* ------------------------------------------------------------------ *)
(** ** The generators

    The generators read the two module-level tables; here the tables are
    the section's variables, and the program is the instance at
    [AGRICULTURAL_DATA] and [CLIMATE_DATA]. *)

Section Generators.

Variable agricultural_data : dict StateAgriculture.
Variable climate_data : dict StateClimate.

(** [CLIMATE_DATA.get(state, {}).get("rainfall", {})] and its siblings. *)
Definition rainfall_data_of (state : string) : dict Z :=
  match dict_get climate_data state with
  | Some climate => rainfall_of climate
  | None => []
  end.

Definition drought_years_in (state : string) : list string :=
  match dict_get climate_data state with
  | Some climate => drought_years_of climate
  | None => []
  end.

Definition climate_zone_in (state : string) : string :=
  match dict_get climate_data state with
  | Some climate => climate_zone_of climate
  | None => "Unknown"
  end.

(** [AGRICULTURAL_DATA.get(state, {}).get("crops", {})] and
    [... .get("water_requirements", {})] *)
Definition crop_data_of (state : string) : dict (dict Z) :=
  match dict_get agricultural_data state with
  | Some agriculture => crops_of agriculture
  | None => []
  end.

Definition water_req_data_of (state : string) : dict string :=
  match dict_get agricultural_data state with
  | Some agriculture => water_requirements_of agriculture
  | None => []
  end.

(** *** Policy arguments *)

(** The production of the years listed as drought years, and of the
    others, in the order of the table. *)
Definition drought_performance (production_data : dict Z) (drought_years : list string)
  : list Z :=
  dict_values (filter (fun item => list_contains drought_years (fst item)) production_data).

Definition normal_performance (production_data : dict Z) (drought_years : list string)
  : list Z :=
  dict_values (filter (fun item => negb (list_contains drought_years (fst item))) production_data).

(** [resilience_ratio] of one crop. *)
Definition resilience_ratio (production_data : dict Z) (drought_years : list string)
    (avg_production : Q) : result Q :=
  avg_drought <- average_or (drought_performance production_data drought_years) 0%Q ;;
  avg_normal <- average_or (normal_performance production_data drought_years) avg_production ;;
  if is_positive avg_normal
  then quotient <- truediv avg_drought avg_normal ;; Ok (fmul quotient 100%Q)
  else Ok 0%Q.

(** The body of the loop that fills [stability_data]. *)
Definition stability_step (crop_data : dict (dict Z)) (drought_years : list string)
    (stability_data : dict CropStability) (crop : string)
  : result (dict CropStability) :=
  match dict_get crop_data crop with
  | Some production_data =>
      let production_values := dict_values production_data in
      if 1 <? len production_values then
        variance <- calculate_variance production_values ;;
        avg_production <-
          truediv (inject_Z (sum production_values)) (inject_Z (len production_values)) ;;
        ratio <- resilience_ratio production_data drought_years avg_production ;;
        Ok (dict_set stability_data crop
              {| average_production := avg_production;
                 production_variance := variance;
                 drought_resilience := fmt_1f ratio ++ "%" |})
      else Ok stability_data
  | None => Ok stability_data
  end.

(** The body of the loop that prints the numbered arguments. *)
Definition argument_step (answer : string) (numbered : nat * Argument) : result string :=
  let (i, argument) := numbered in
  let answer :=
    answer ++ "### " ++ decimal (Z.of_nat i) ++ ". " ++ arg_title argument ++ LF in
  let answer := answer ++ arg_content argument ++ LF ++ LF in
  answer <-
    (if Nat.eqb i 1 then
       match arg_data argument with
       | ClimateFacts average_rainfall drought_years zone =>
           let answer := answer ++ "- Average Rainfall: " ++ fmt_0f average_rainfall ++ "mm" ++ LF in
           let answer := answer ++ "- Climate Zone: " ++ zone ++ LF in
           Ok (answer ++ "- Recent Drought Years: "
                 ++ (match drought_years with
                     | [] => "None"
                     | _ => join ", " drought_years
                     end) ++ LF)
       | _ => Raise (KeyError "average_rainfall")
       end
     else Ok answer) ;;
  Ok (answer ++ LF).

(** [enumerate(l, 1)] *)
Definition enumerate_from_1 {A : Type} (l : list A) : list (nat * A) :=
  combine (seq 1 (List.length l)) l.

(** The body of the loop that lists the recommended crops. *)
Definition recommended_step (water_req_data : dict string) (answer crop : string)
  : result string :=
  match dict_get water_req_data crop with
  | Some water_req =>
      Ok (answer ++ "- **" ++ crop ++ "**: " ++ water_req ++ " water requirement" ++ LF)
  | None => Ok answer
  end.

Definition generate_policy_arguments (entities : Entities) : result Answer :=
  let state := target_state entities in
  let drought_resistant_crops := ["Bajra"; "Guar"] in
  let water_intensive_crops := ["Rice"; "Wheat"] in
  let rainfall_data := rainfall_data_of state in
  avg_rainfall <- average_or (dict_values rainfall_data) 0%Q ;;
  let drought_years := drought_years_in state in
  let climate_zone := climate_zone_in state in
  let crop_data := crop_data_of state in
  let water_req_data := water_req_data_of state in
  let argument1 :=
    {| arg_title := "Water Scarcity Adaptation";
       arg_content :=
         "**" ++ title state ++ "** receives only **" ++ fmt_0f avg_rainfall
         ++ "mm** average annual rainfall (classified as " ++ lower climate_zone
         ++ ") with recent drought years in " ++ repr_list drought_years
         ++ ". Drought-resistant crops like Bajra and Guar require **60-70% less water** than water-intensive alternatives like Rice and Wheat.";
       arg_data := ClimateFacts avg_rainfall drought_years climate_zone |} in
  stability_data <-
    for_each (stability_step crop_data drought_years)
             (drought_resistant_crops ++ water_intensive_crops) [] ;;
  let argument2 :=
    {| arg_title := "Economic Resilience";
       arg_content :=
         "Drought-resistant crops maintain higher production levels during drought years, providing economic stability to farmers when they need it most.";
       arg_data := StabilityFacts stability_data |} in
  let water_savings_comparison :=
    fold_left (fun comparison crop =>
                 match dict_get water_req_data crop with
                 | Some water_req => dict_set comparison crop water_req
                 | None => comparison
                 end) drought_resistant_crops [] in
  let argument3 :=
    {| arg_title := "Sustainable Resource Management";
       arg_content :=
         "With groundwater levels in " ++ title state
         ++ " declining rapidly, shifting to low-water crops is essential for long-term agricultural sustainability.";
       arg_data := SavingsFacts water_savings_comparison "60-70% less water required" |} in
  let arguments := [argument1; argument2; argument3] in
  let answer :=
    "## Data-Backed Arguments for Promoting Drought-Resistant Crops in "
    ++ title state ++ LF ++ LF in
  let answer :=
    answer ++ "Based on integrated analysis of climate and agricultural data from 2018-2022:"
    ++ LF ++ LF in
  answer <- for_each argument_step (enumerate_from_1 arguments) answer ;;
  let answer := answer ++ "### Recommended Drought-Resistant Crops:" ++ LF in
  answer <- for_each (recommended_step water_req_data) drought_resistant_crops answer ;;
  let data_points :=
    PolicyPoints avg_rainfall drought_years climate_zone stability_data
      (fold_left (fun d crop => dict_set d crop (dict_get_default water_req_data crop "Unknown"))
                 (drought_resistant_crops ++ water_intensive_crops) []) in
  sources <- cited_sources ;;
  Ok {| answer := answer; data_points := data_points; sources := sources |}.

(** *** Comparison *)

(** [comparison_data[state]["crop_production"][crop] = production] *)
Definition record_production (comparison_data : dict StateComparison)
    (state crop : string) (production : dict Z) : result (dict StateComparison) :=
  entry <- dict_item comparison_data state ;;
  Ok (dict_set comparison_data state
        {| rainfall := rainfall entry;
           crop_production := dict_set (crop_production entry) crop production;
           climate_zone := climate_zone entry |}).

(** The body of the inner loop that collects the crops. *)
Definition collect_crop_step (state : string) (comparison_data : dict StateComparison)
    (crop : string) : result (dict StateComparison) :=
  if dict_has (crop_data_of state) crop then
    agriculture <- dict_item agricultural_data state ;;
    production <- dict_item (crops_of agriculture) crop ;;
    record_production comparison_data state crop production
  else Ok comparison_data.

(** The body of the loop that collects the states. *)
Definition collect_state_step (crops : list string)
    (comparison_data : dict StateComparison) (state : string)
  : result (dict StateComparison) :=
  let comparison_data :=
    dict_set comparison_data state
      {| rainfall := rainfall_data_of state;
         crop_production := [];
         climate_zone := climate_zone_in state |} in
  for_each (collect_crop_step state) crops comparison_data.

(** The body of the inner loop that prints one crop of a state. *)
Definition crop_line_step (state : string) (answer : string) (item : string * dict Z)
  : result string :=
  let (crop, production) := item in
  avg_production <-
    truediv (inject_Z (sum (dict_values production))) (inject_Z (len production)) ;;
  agriculture <- dict_item agricultural_data state ;;
  let water_req := dict_get_default (water_requirements_of agriculture) crop "Unknown" in
  Ok (answer ++ "- **" ++ crop ++ "**: " ++ fmt_comma_0f avg_production
        ++ " thousand tonnes (Water: " ++ water_req ++ ")" ++ LF).

(** The body of the loop that prints one section per state. *)
Definition state_section_step (comparison_data : dict StateComparison)
    (answer state : string) : result string :=
  let answer := answer ++ "### " ++ title state ++ LF in
  entry <- dict_item comparison_data state ;;
  let rainfall_data := rainfall entry in
  avg_rainfall <- average_or (dict_values rainfall_data) 0%Q ;;
  let answer := answer ++ "- **Climate Zone**: " ++ climate_zone entry ++ LF in
  let answer := answer ++ "- **Average Rainfall**: " ++ fmt_1f avg_rainfall ++ "mm" ++ LF in
  answer <- for_each (crop_line_step state) (crop_production entry) answer ;;
  Ok (answer ++ LF).

Definition generate_comparison (entities : Entities) : result Answer :=
  let states := or_default (states entities) ["rajasthan"; "punjab"] in
  let crops := or_default (crops entities) ["Bajra"; "Wheat"] in
  comparison_data <- for_each (collect_state_step crops) states [] ;;
  let answer := "## Comparative Analysis: " ++ join ", " (map title states) ++ LF ++ LF in
  answer <- for_each (state_section_step comparison_data) states answer ;;
  sources <- cited_sources ;;
  Ok {| answer := answer;
        data_points := ComparisonPoints comparison_data;
        sources := sources |}.

(** *** Trends *)

(** The body of the loop that collects [crop_trends]. *)
Definition collect_trend_step (state : string) (crop_trends : dict (dict Z))
    (crop : string) : result (dict (dict Z)) :=
  if dict_has (crop_data_of state) crop then
    agriculture <- dict_item agricultural_data state ;;
    production <- dict_item (crops_of agriculture) crop ;;
    Ok (dict_set crop_trends crop production)
  else Ok crop_trends.

(** [[production_data[year] for year in sorted(production_data.keys())]] *)
Definition values_by_year (production_data : dict Z) : result (list Z) :=
  for_each (fun values year =>
              production <- dict_item production_data year ;;
              Ok (values ++ [production])%list)
           (sorted (dict_keys production_data)) [].

Definition direction (trend : Q) : string :=
  if is_positive trend then "Increasing" else "Decreasing".

(** The body of the loop that prints the production trend of a crop. *)
Definition crop_trend_step (crop_data : dict (dict Z)) (answer crop : string)
  : result string :=
  match dict_get crop_data crop with
  | Some production_data =>
      production_values <- values_by_year production_data ;;
      production_trend <- linear_trend production_values ;;
      let trend_icon := if is_positive production_trend then icon_up else icon_down in
      Ok (answer ++ "- **" ++ crop ++ "**: " ++ trend_icon ++ " "
            ++ direction production_trend ++ " by " ++ fmt_1f (Qabs production_trend)
            ++ " thousand tonnes/year" ++ LF)
  | None => Ok answer
  end.

(** The rainfall part of the trend report. *)
Definition rainfall_trend_text (state answer : string) (rainfall_values : list Z)
  : result string :=
  if 1 <? len rainfall_values then
    rainfall_trend <- linear_trend rainfall_values ;;
    let answer := answer ++ "### Climate Trends" ++ LF in
    let answer :=
      answer ++ "- **Rainfall Trend**: "
      ++ (if is_positive rainfall_trend then mark_up ++ " Increasing"
          else mark_down ++ " Decreasing")
      ++ " by " ++ fmt_1f (Qabs rainfall_trend) ++ "mm per year" ++ LF in
    climate <- dict_item climate_data state ;;
    Ok (answer ++ "- **Drought Years**: " ++ repr_list (drought_years_of climate)
          ++ LF ++ LF)
  else Ok answer.

Definition generate_trend_analysis (entities : Entities) : result Answer :=
  let state := target_state entities in
  let crops := or_default (crops entities) ["Bajra"; "Wheat"] in
  let rainfall_trend := rainfall_data_of state in
  crop_trends <- for_each (collect_trend_step state) crops [] ;;
  let answer := "## Trend Analysis for " ++ title state ++ " (2018-2022)" ++ LF ++ LF in
  let rainfall_values := dict_values rainfall_trend in
  answer <- rainfall_trend_text state answer rainfall_values ;;
  let answer := answer ++ "### Crop Production Trends" ++ LF in
  let crop_data := crop_data_of state in
  answer <- for_each (crop_trend_step crop_data) crops answer ;;
  sources <- cited_sources ;;
  Ok {| answer := answer;
        data_points := TrendPoints rainfall_trend crop_trends;
        sources := sources |}.

(** *** Dispatch *)

(** [entities["comparison_type"] == intent] *)
Definition intent_is (entities : Entities) (intent : string) : bool :=
  match comparison_type entities with
  | Some found => String.eqb found intent
  | None => false
  end.

Definition generate_answer (entities : Entities) (question : string) : result Answer :=
  if intent_is entities "policy_arguments" then generate_policy_arguments entities
  else if intent_is entities "comparison" then generate_comparison entities
  else if intent_is entities "trend" then generate_trend_analysis entities
  else if existsb (fun word => str_contains (lower question) word)
                  ["drought"; "resistant"; "promote"; "argument"]
       then generate_policy_arguments entities
       else generate_comparison entities.

End Generators.

(** The question-answering operation of the service over its tables. *)
Definition ask_question (question : string) : result Answer :=
  let entities := extract_entities question in
  generate_answer AGRICULTURAL_DATA CLIMATE_DATA entities question.

(* ------------------------------------------------------------------ *)
(** * Notions used in the statements *)

(** ** Year tokens, by the words of the specification

    A year token is a run of four decimal digits whose value lies in
    2018..2024 and which is word-bounded: no word character right
    before it and none right after it.  The question is any text, as
    its code points. *)

Definition digit_of_point (c : N) : Z := Z.of_N c - 48.

Definition point_before (question : text) (i : nat) : option N :=
  match i with
  | O => None
  | S j => nth_error question j
  end.

Definition is_year_token_at (is_alnum : N -> bool) (question : text) (i : nat) : bool :=
  match nth_error question i, nth_error question (i + 1),
        nth_error question (i + 2), nth_error question (i + 3) with
  | Some a, Some b, Some c, Some d =>
      let value := 1000 * digit_of_point a + 100 * digit_of_point b
                   + 10 * digit_of_point c + digit_of_point d in
      (point_in 48 57 a && point_in 48 57 b && point_in 48 57 c && point_in 48 57 d
       && (2018 <=? value) && (value <=? 2024)
       && negb (is_word_at is_alnum (point_before question i))
       && negb (is_word_at is_alnum (nth_error question (i + 4))))%bool
  | _, _, _, _ => false
  end.

Definition year_tokens_text (is_alnum : N -> bool) (question : text) : list text :=
  map (fun i => firstn 4 (skipn i question))
      (filter (is_year_token_at is_alnum question) (seq 0 (List.length question))).

(** The Unicode table of alphanumeric characters, on the ASCII
    characters. *)
Definition alnum_on_ascii (is_alnum : N -> bool) : Prop :=
  forall c, (c < 128)%N -> is_alnum c = ascii_alnum c.

(** A question of ASCII characters only. *)
Definition is_ascii (question : string) : bool :=
  forallb (fun c => N.ltb (N_of_ascii c) 128) (list_ascii_of_string question).

(** ** Loops, dictionaries and tables *)

(** A loop body that only ever extends the text it is given. *)
Definition extends {A : Type} (body : string -> A -> result string) : Prop :=
  forall text x text', body text x = Ok text' -> exists tail, text' = text ++ tail.

(** [d] has an entry for [key]. *)
Definition has_key {V : Type} (d : dict V) (key : string) : Prop :=
  dict_get d key <> None.

(** Every production series recorded in a comparison comes from the
    production table of its state. *)
Definition from_table (agricultural_data : dict StateAgriculture)
    (comparison_data : dict StateComparison) : Prop :=
  forall state entry crop production,
    dict_get comparison_data state = Some entry ->
    In (crop, production) (crop_production entry) ->
    dict_get (crop_data_of agricultural_data state) crop = Some production.

(** No crop of the production table has an empty series. *)
Definition series_nonempty (agricultural_data : dict StateAgriculture) : Prop :=
  forall state agriculture crop production,
    dict_get agricultural_data state = Some agriculture ->
    dict_get (crops_of agriculture) crop = Some production ->
    production <> [].

(** Ascending order of year labels. *)
Definition string_le (a b : string) : Prop := String.leb a b = true.

(** ** The reports *)

(** The headings the three reports open with. *)
Definition comparison_heading : string := "## Comparative Analysis: ".
Definition trend_heading : string := "## Trend Analysis for ".
Definition policy_heading : string :=
  "## Data-Backed Arguments for Promoting Drought-Resistant Crops in ".

(** The line the trend report prints for a crop. *)
Definition crop_trend_line (crop : string) (production_trend : Q) : string :=
  "- **" ++ crop ++ "**: " ++ (if is_positive production_trend then icon_up else icon_down)
  ++ " " ++ direction production_trend ++ " by " ++ fmt_1f (Qabs production_trend)
  ++ " thousand tonnes/year" ++ LF.

(** The arithmetic mean of a series, as a rational. *)
Definition mean (values : list Z) : Q :=
  (inject_Z (sum values) / inject_Z (len values))%Q.


(* ------------------------------------------------------------------ *)
(** * Auxiliary notions of the proofs about the year pattern *)

Definition digit_value (c : ascii) : Z := Z.of_N (N_of_ascii c) - 48.

Definition year_chars (c1 c2 c3 c4 : ascii) : bool :=
  (is_char "2" c1 && is_char "0" c2
   && ((is_char "1" c3 && in_range 56 57 c4) || (is_char "2" c3 && in_range 48 52 c4)))%bool.

Definition digits_in_range (c1 c2 c3 c4 : ascii) : bool :=
  let value := 1000 * digit_value c1 + 100 * digit_value c2
               + 10 * digit_value c3 + digit_value c4 in
  (is_digit c1 && is_digit c2 && is_digit c3 && is_digit c4
   && (2018 <=? value) && (value <=? 2024))%bool.

Definition year_points (c1 c2 c3 c4 : N) : bool :=
  (point_is 50 c1 && point_is 48 c2
   && ((point_is 49 c3 && point_in 56 57 c4) || (point_is 50 c3 && point_in 48 52 c4)))%bool.

Definition points_in_range (c1 c2 c3 c4 : N) : bool :=
  let value := 1000 * digit_of_point c1 + 100 * digit_of_point c2
               + 10 * digit_of_point c3 + digit_of_point c4 in
  (point_in 48 57 c1 && point_in 48 57 c2 && point_in 48 57 c3 && point_in 48 57 c4
   && (2018 <=? value) && (value <=? 2024))%bool.

(** The token test with the character before the text given, for a
    suffix of the question. *)
Definition is_year_token_after (is_alnum : N -> bool) (before : option N) (s : text)
    (i : nat) : bool :=
  match nth_error s i, nth_error s (i + 1), nth_error s (i + 2), nth_error s (i + 3) with
  | Some a, Some b, Some c, Some d =>
      (points_in_range a b c d
       && negb (is_word_at is_alnum (match i with O => before | S j => nth_error s j end))
       && negb (is_word_at is_alnum (nth_error s (i + 4))))%bool
  | _, _, _, _ => false
  end.

(** The pattern tried at every position, without resuming behind a
    match. *)
Fixpoint scan_years (is_alnum : N -> bool) (before : option N) (s : text) : list text :=
  match s with
  | [] => []
  | c :: s' =>
      match match_year_at is_alnum before s with
      | Some group => [group]
      | None => []
      end ++ scan_years is_alnum (Some c) s'
  end.

(** No match at any of the first [k] positions. *)
Fixpoint no_match_in (is_alnum : N -> bool) (k : nat) (before : option N) (s : text)
  : Prop :=
  match k, s with
  | S k', c :: s' =>
      match_year_at is_alnum before s = None /\ no_match_in is_alnum k' (Some c) s'
  | _, _ => True
  end.

(** The code point of the character before a position. *)
Definition point_of_char (c : option ascii) : option N := option_map N_of_ascii c.

(** A character, or none, of a question in ASCII. *)
Definition ascii_or_none (c : option ascii) : Prop :=
  forall x, c = Some x -> (N_of_ascii x < 128)%N.

(** The alphanumeric characters among the first 256 code points, and
    none beyond: a table for questions in Latin-1. *)
Definition latin1_alnum (c : N) : bool :=
  (ascii_alnum c
   || point_is 170 c || point_in 178 179 c || point_is 181 c || point_in 185 186 c
   || point_in 188 190 c || point_in 192 214 c || point_in 216 246 c
   || point_in 248 255 c)%bool.

(* ------------------------------------------------------------------ *)
(** * Notions used in the further properties *)

(** What a comparison holds for a state: the rainfall and the climate
    zone the climate table has for it, and the series of exactly the
    requested crops that its production table has. *)
Definition comparison_entry_for (agricultural_data : dict StateAgriculture)
    (climate_data : dict StateClimate) (crops : list string) (state : string)
    (entry : StateComparison) : Prop :=
  rainfall entry = rainfall_data_of climate_data state /\
  climate_zone entry = climate_zone_in climate_data state /\
  forall crop,
    dict_get (crop_production entry) crop
    = if list_contains crops crop
      then dict_get (crop_data_of agricultural_data state) crop
      else None.

(** [option_map] of [to_lower], for the character before a position. *)
Definition lower_char (c : option ascii) : option ascii := option_map to_lower c.
(* ------------------------------------------------------------------ *)
(** * Properties *)

(** ** Basic facts about the building blocks *)

Lemma bind_ok {A B : Type} (m : result A) (f : A -> result B) (b : B) :
  bind m f = Ok b -> exists a, m = Ok a /\ f a = Ok b.
Proof.
  destruct m as [a | e]; simpl; intros H.
  - exists a. split; [reflexivity | exact H].
  - discriminate H.
Qed.

Lemma append_assoc (a b c : string) : (a ++ b) ++ c = a ++ (b ++ c).
Proof.
  induction a as [| x a IH]; simpl.
  - reflexivity.
  - rewrite IH. reflexivity.
Qed.

Lemma append_nil_r (a : string) : a ++ "" = a.
Proof.
  induction a as [| x a IH]; simpl; [reflexivity | now rewrite IH].
Qed.

Lemma for_each_extends {A : Type} (body : string -> A -> result string) :
  extends body ->
  forall l text text', for_each body l text = Ok text' ->
  exists tail, text' = text ++ tail.
Proof.
  intros Hbody l. induction l as [| x l IH]; simpl; intros text text' H.
  - injection H as <-. exists "". now rewrite append_nil_r.
  - apply bind_ok in H. destruct H as (mid & Hstep & Hrest).
    apply Hbody in Hstep. destruct Hstep as (t1 & ->).
    apply IH in Hrest. destruct Hrest as (t2 & ->).
    exists (t1 ++ t2). apply append_assoc.
Qed.

(** A loop whose body never raises never raises. *)
Lemma for_each_total {A S : Type} (body : S -> A -> result S) (l : list A) :
  (forall s x, In x l -> exists s', body s x = Ok s') ->
  forall s, exists s', for_each body l s = Ok s'.
Proof.
  induction l as [| x l IH]; simpl; intros Hbody s.
  - now exists s.
  - destruct (Hbody s x (or_introl eq_refl)) as (s1 & ->). simpl.
    apply IH. intros s2 y Hy. apply Hbody. now right.
Qed.

Lemma cited_sources_fixed :
  exists agriculture climate,
    dict_get DATA_SOURCES "agriculture" = Some agriculture /\
    dict_get DATA_SOURCES "climate" = Some climate /\
    cited_sources = Ok [agriculture; climate].
Proof. do 2 eexists. repeat split; reflexivity. Qed.

(* ------------------------------------------------------------------ *)
(** ** Entity extraction *)

Lemma matched_names_keys (table : dict (list string)) (question_lower canonical : string) :
  In canonical (matched_names table question_lower) -> In canonical (dict_keys table).
Proof.
  induction table as [| [k kws] table IH]; simpl; [tauto |].
  destruct (any_keyword question_lower kws); simpl; intuition.
Qed.

Lemma matched_names_count (table : dict (list string)) (question_lower : string) :
  NoDup (dict_keys table) ->
  forall canonical keywords, In (canonical, keywords) table ->
  count_occ string_dec (matched_names table question_lower) canonical
  = if any_keyword question_lower keywords then 1%nat else 0%nat.
Proof.
  induction table as [| [k kws] table IH]; simpl; intros Hnd c keywords Hin; [tauto |].
  inversion Hnd as [| ? ? Hk Hnd']; subst.
  destruct Hin as [Heq | Hin].
  - injection Heq as -> ->.
    assert (Hzero : count_occ string_dec (matched_names table question_lower) c = 0%nat).
    { apply count_occ_not_In. intros Hc. apply Hk. eapply matched_names_keys, Hc. }
    destruct (any_keyword question_lower keywords); simpl.
    + destruct (string_dec c c); [| congruence]. now rewrite Hzero.
    + exact Hzero.
  - assert (Hne : k <> c).
    { intros ->. apply Hk. unfold dict_keys. change c with (fst (c, keywords)).
      now apply in_map. }
    destruct (any_keyword question_lower kws); simpl.
    + destruct (string_dec k c); [congruence |]. now apply IH.
    + now apply IH.
Qed.

Lemma crop_keywords_distinct : NoDup (dict_keys crop_keywords).
Proof.
  unfold dict_keys, crop_keywords; simpl.
  repeat (constructor; [simpl; intros H; repeat (destruct H as [H | H]; [discriminate H |]); exact H |]).
  constructor.
Qed.

(** C4.  Whenever the lower-cased question contains a synonym of a crop,
    the crop's canonical name occurs exactly once among the extracted
    crops, however many of its synonyms the question contains. *)
Theorem crop_extracted_exactly_once (question crop synonym : string) (synonyms : list string) :
  In (crop, synonyms) crop_keywords ->
  In synonym synonyms ->
  str_contains (lower question) synonym = true ->
  count_occ string_dec (crops (extract_entities question)) crop = 1%nat.
Proof.
  intros Hcrop Hsyn Hocc. unfold extract_entities. cbn [crops].
  rewrite (matched_names_count _ _ crop_keywords_distinct crop synonyms Hcrop).
  replace (any_keyword (lower question) synonyms) with true; [reflexivity |].
  symmetry. unfold any_keyword. apply existsb_exists. now exists synonym.
Qed.

Lemma crop_extracted_exactly_once_witness :
  count_occ string_dec
    (crops (extract_entities "Is Pearl Millet (bajra) the millet for Rajasthan?")) "Bajra"
  = 1%nat.
Proof.
  apply (crop_extracted_exactly_once _ "Bajra" "millet" ["bajra"; "pearl millet"; "millet"]).
  - simpl. left. reflexivity.
  - simpl. right. right. left. reflexivity.
  - vm_compute. reflexivity.
Defined.

(** C10.  Intent detection takes the first keyword that matches, in the
    fixed order compare, trend, argument / promote: a question with
    "compare" is a comparison whatever else it contains, one with
    "trend" but not "compare" is a trend question, and "argument" or
    "promote" decide only when neither of the other two occurs. *)
Theorem intent_first_match_wins (question : string) :
  let mentions := str_contains (lower question) in
  let intent := comparison_type (extract_entities question) in
  (mentions "compare" = true -> intent = Some "comparison") /\
  (mentions "compare" = false -> mentions "trend" = true -> intent = Some "trend") /\
  (mentions "compare" = false -> mentions "trend" = false ->
   mentions "argument" = true \/ mentions "promote" = true ->
   intent = Some "policy_arguments") /\
  (mentions "compare" = false -> mentions "trend" = false ->
   mentions "argument" = false -> mentions "promote" = false ->
   intent = None).
Proof.
  cbv zeta. unfold extract_entities, comparison_type.
  repeat split.
  - intros ->. reflexivity.
  - intros -> ->. reflexivity.
  - intros -> -> [-> | ->]; [reflexivity |].
    now rewrite orb_true_r.
  - intros -> -> -> ->. reflexivity.
Qed.

Lemma intent_first_match_wins_witness :
  comparison_type
    (extract_entities "Compare the rainfall trend and argue whether to promote Bajra")
  = Some "comparison".
Proof.
  apply (proj1 (intent_first_match_wins
                  "Compare the rainfall trend and argue whether to promote Bajra")).
  vm_compute. reflexivity.
Defined.

(** *** The year pattern on ASCII questions *)

Lemma ascii_eqb_code (a b : ascii) :
  Ascii.eqb a b = N.eqb (N_of_ascii a) (N_of_ascii b).
Proof.
  destruct (Ascii.eqb_spec a b) as [-> | Hne].
  - now rewrite N.eqb_refl.
  - symmetry. apply N.eqb_neq. intros Heq. apply Hne.
    rewrite <- (ascii_N_embedding a), <- (ascii_N_embedding b). now rewrite Heq.
Qed.

Lemma digit_is_word (c : ascii) : is_digit c = true -> is_word_char c = true.
Proof.
  unfold is_word_char. intros ->. now rewrite orb_true_r.
Qed.

(** The digits of a year in range, in terms of character codes. *)
Lemma year_codes (n1 n2 n3 n4 : N) :
  ((48 <= n1 <= 57) /\ (48 <= n2 <= 57) /\ (48 <= n3 <= 57) /\ (48 <= n4 <= 57) /\
   (2018 <= 1000 * (Z.of_N n1 - 48) + 100 * (Z.of_N n2 - 48)
            + 10 * (Z.of_N n3 - 48) + (Z.of_N n4 - 48) <= 2024)%Z)%N
  <->
  (n1 = 50 /\ n2 = 48 /\
   ((n3 = 49 /\ 56 <= n4 <= 57) \/ (n3 = 50 /\ 48 <= n4 <= 52)))%N.
Proof. lia. Qed.

Lemma year_chars_digits (c1 c2 c3 c4 : ascii) :
  year_chars c1 c2 c3 c4 = digits_in_range c1 c2 c3 c4.
Proof.
  apply eq_true_iff_eq.
  unfold year_chars, digits_in_range, is_char, is_digit, in_range, digit_value.
  rewrite !ascii_eqb_code.
  change (N_of_ascii "2") with 50%N.
  change (N_of_ascii "1") with 49%N.
  change (N_of_ascii "0") with 48%N.
  cbv zeta.
  rewrite !andb_true_iff, !orb_true_iff, !andb_true_iff,
          !N.eqb_eq, !N.leb_le, !Z.leb_le.
  pose proof (year_codes (N_of_ascii c1) (N_of_ascii c2) (N_of_ascii c3) (N_of_ascii c4))
    as H.
  tauto.
Qed.

Lemma year_chars_word (c1 c2 c3 c4 : ascii) :
  year_chars c1 c2 c3 c4 = true -> is_word_char c1 = true /\ is_word_char c4 = true.
Proof.
  rewrite year_chars_digits. unfold digits_in_range. cbv zeta.
  rewrite !andb_true_iff. intros H. split; apply digit_is_word; tauto.
Qed.

Lemma match_year_chars (before : option ascii) (c1 c2 c3 c4 : ascii) (rest : string) :
  match_year before (String c1 (String c2 (String c3 (String c4 rest))))
  = if (word_boundary before (Some c1) && year_chars c1 c2 c3 c4
        && word_boundary (Some c4) (head_char rest))%bool
    then Some (String c1 (String c2 (String c3 (String c4 ""))))
    else None.
Proof.
  unfold match_year, match_alternative, year_chars, year_201x, year_202x.
  cbn [match_classes head_char last_char].
  destruct (word_boundary before (Some c1)); [| reflexivity].
  destruct (is_char "2" c1); [| reflexivity].
  destruct (is_char "0" c2); [| reflexivity].
  destruct (is_char "1" c3), (in_range 56 57 c4),
           (is_char "2" c3), (in_range 48 52 c4);
    cbn [last_char andb orb];
    destruct (word_boundary (Some c4) (head_char rest)); reflexivity.
Qed.

Lemma match_year_short (before : option ascii) (s : string) :
  String.get 3 s = None -> match_year before s = None.
Proof.
  intros Hshort. unfold match_year, match_alternative, year_201x, year_202x.
  destruct (word_boundary before (head_char s)); [| reflexivity].
  destruct s as [| c1 [| c2 [| c3 [| c4 rest]]]]; cbn [match_classes];
    try discriminate Hshort;
    repeat match goal with
           | |- context [if ?b then _ else _] => destruct b
           end; reflexivity.
Qed.

Lemma map_filter_shift {B : Type} (g : nat -> B) (f : nat -> bool) (l : list nat) :
  map g (filter f (map S l)) = map (fun i => g (S i)) (filter (fun i => f (S i)) l).
Proof.
  induction l as [| i l IH]; [reflexivity |].
  cbn [map filter]. destruct (f (S i)); cbn [map]; now rewrite IH.
Qed.

(** *** The year pattern on any text against the year tokens *)

Lemma year_points_digits (c1 c2 c3 c4 : N) :
  year_points c1 c2 c3 c4 = points_in_range c1 c2 c3 c4.
Proof.
  apply eq_true_iff_eq.
  unfold year_points, points_in_range, point_is, point_in, digit_of_point.
  cbv zeta.
  rewrite !andb_true_iff, !orb_true_iff, !andb_true_iff,
          !N.eqb_eq, !N.leb_le, !Z.leb_le.
  pose proof (year_codes c1 c2 c3 c4) as H.
  tauto.
Qed.

Lemma year_points_are_digits (c1 c2 c3 c4 : N) :
  year_points c1 c2 c3 c4 = true ->
  point_in 48 57 c1 = true /\ point_in 48 57 c2 = true /\
  point_in 48 57 c3 = true /\ point_in 48 57 c4 = true.
Proof.
  rewrite year_points_digits. unfold points_in_range. cbv zeta.
  rewrite !andb_true_iff. tauto.
Qed.

Section TextYears.

Variable is_alnum : N -> bool.
Hypothesis digits_are_alnum : forall c, point_in 48 57 c = true -> is_alnum c = true.

Lemma digit_point_is_word (c : N) :
  point_in 48 57 c = true -> is_word_point is_alnum c = true.
Proof.
  intros H. unfold is_word_point. now rewrite (digits_are_alnum c H).
Qed.

Lemma match_year_at_points (before : option N) (c1 c2 c3 c4 : N) (rest : text) :
  match_year_at is_alnum before (c1 :: c2 :: c3 :: c4 :: rest)
  = if (boundary_at is_alnum before (Some c1) && year_points c1 c2 c3 c4
        && boundary_at is_alnum (Some c4) (hd_error rest))%bool
    then Some [c1; c2; c3; c4]
    else None.
Proof.
  unfold match_year_at, match_alternative_at, year_points,
    year_201x_points, year_202x_points.
  cbn [match_points hd_error].
  destruct (boundary_at is_alnum before (Some c1)); [| reflexivity].
  destruct (point_is 50 c1); [| reflexivity].
  destruct (point_is 48 c2); [| reflexivity].
  destruct (point_is 49 c3), (point_in 56 57 c4),
           (point_is 50 c3), (point_in 48 52 c4);
    cbn [last_point andb orb];
    destruct (boundary_at is_alnum (Some c4) (hd_error rest)); reflexivity.
Qed.

Lemma match_year_at_short (before : option N) (s : text) :
  nth_error s 3 = None -> match_year_at is_alnum before s = None.
Proof.
  intros Hshort. unfold match_year_at, match_alternative_at,
    year_201x_points, year_202x_points.
  destruct (boundary_at is_alnum before (hd_error s)); [| reflexivity].
  destruct s as [| c1 [| c2 [| c3 [| c4 rest]]]]; cbn [match_points];
    try discriminate Hshort;
    repeat match goal with
           | |- context [if ?b then _ else _] => destruct b
           end; reflexivity.
Qed.

(** At one position the pattern matches exactly a year token. *)
Lemma match_year_at_token (before : option N) (s : text) :
  match_year_at is_alnum before s
  = if is_year_token_after is_alnum before s 0 then Some (firstn 4 s) else None.
Proof.
  destruct (nth_error s 3) as [c |] eqn:Hlen.
  - destruct s as [| c1 [| c2 [| c3 [| c4 rest]]]]; try discriminate Hlen.
    rewrite match_year_at_points.
    unfold is_year_token_after.
    replace (nth_error (c1 :: c2 :: c3 :: c4 :: rest) (0 + 4)) with (hd_error rest)
      by (destruct rest; reflexivity).
    cbn [nth_error Nat.add firstn].
    rewrite <- year_points_digits.
    destruct (year_points c1 c2 c3 c4) eqn:Hy.
    + destruct (year_points_are_digits _ _ _ _ Hy) as (H1 & _ & _ & H4).
      unfold boundary_at. cbn [is_word_at].
      rewrite (digit_point_is_word _ H1), (digit_point_is_word _ H4).
      destruct (is_word_at is_alnum before), (is_word_at is_alnum (hd_error rest));
        reflexivity.
    + rewrite andb_false_r. reflexivity.
  - rewrite (match_year_at_short _ _ Hlen).
    unfold is_year_token_after. cbn [Nat.add].
    destruct (nth_error s 0); [| reflexivity].
    destruct (nth_error s 1); [| reflexivity].
    destruct (nth_error s 2); [| reflexivity].
    rewrite Hlen. reflexivity.
Qed.

Lemma match_year_at_after_word (before : option N) (s : text) :
  is_word_at is_alnum before = true -> match_year_at is_alnum before s = None.
Proof.
  intros Hw. rewrite match_year_at_token. unfold is_year_token_after.
  rewrite Hw. cbn [negb].
  destruct (nth_error s 0); [| reflexivity].
  destruct (nth_error s (0 + 1)); [| reflexivity].
  destruct (nth_error s (0 + 2)); [| reflexivity].
  destruct (nth_error s (0 + 3)); [| reflexivity].
  rewrite andb_false_r. reflexivity.
Qed.

(** Behind the first character of a match the next three positions
    cannot match: each follows a digit. *)
Lemma match_year_at_quiet (before : option N) (c : N) (s group : text) :
  match_year_at is_alnum before (c :: s) = Some group ->
  no_match_in is_alnum 3 (Some c) s.
Proof.
  intros Hm.
  destruct s as [| c2 [| c3 [| c4 rest]]];
    try (rewrite match_year_at_short in Hm by reflexivity; discriminate Hm).
  rewrite match_year_at_points in Hm.
  destruct (year_points c c2 c3 c4) eqn:Hy;
    [| rewrite andb_false_r in Hm; discriminate Hm].
  destruct (year_points_are_digits _ _ _ _ Hy) as (H1 & H2 & H3 & _).
  cbn [no_match_in].
  repeat split; apply match_year_at_after_word; cbn [is_word_at];
    now apply digit_point_is_word.
Qed.

Lemma findall_years_at_scan (s : text) :
  forall before k, no_match_in is_alnum k before s ->
  findall_years_at is_alnum before k s = scan_years is_alnum before s.
Proof.
  induction s as [| c s IH]; intros before k Hq; [reflexivity |].
  cbn [findall_years_at scan_years].
  destruct k as [| k].
  - destruct (match_year_at is_alnum before (c :: s)) as [group |] eqn:Hm.
    + cbn [app]. f_equal. apply IH. eapply match_year_at_quiet, Hm.
    + cbn [app]. apply IH. destruct s; exact I.
  - cbn [no_match_in] in Hq. destruct Hq as [Hnone Hq].
    rewrite Hnone. cbn [app]. now apply IH.
Qed.

Lemma is_year_token_after_shift (before : option N) (c : N) (s : text) (i : nat) :
  is_year_token_after is_alnum before (c :: s) (S i)
  = is_year_token_after is_alnum (Some c) s i.
Proof.
  unfold is_year_token_after. cbn [nth_error Nat.add].
  destruct i; reflexivity.
Qed.

Lemma scan_years_tokens (s : text) :
  forall before,
  scan_years is_alnum before s
  = map (fun i => firstn 4 (skipn i s))
        (filter (is_year_token_after is_alnum before s) (seq 0 (List.length s))).
Proof.
  induction s as [| c s IH]; intros before; [reflexivity |].
  cbn [scan_years List.length seq filter].
  rewrite <- seq_shift, match_year_at_token.
  assert (Htail :
    map (fun i => firstn 4 (skipn i (c :: s)))
        (filter (is_year_token_after is_alnum before (c :: s))
                (map S (seq 0 (List.length s))))
    = scan_years is_alnum (Some c) s).
  { rewrite map_filter_shift, IH.
    rewrite (filter_ext _ _ (is_year_token_after_shift before c s)).
    reflexivity. }
  destruct (is_year_token_after is_alnum before (c :: s) 0); cbn [map app skipn];
    now rewrite Htail.
Qed.

(** A match of the pattern is one of the seven years. *)
Lemma match_year_at_range (before : option N) (s year : text) :
  match_year_at is_alnum before s = Some year ->
  In year (map points_of ["2018"; "2019"; "2020"; "2021"; "2022"; "2023"; "2024"]).
Proof.
  intros Hm.
  destruct s as [| c1 [| c2 [| c3 [| c4 rest]]]];
    try (rewrite match_year_at_short in Hm by reflexivity; discriminate Hm).
  rewrite match_year_at_points in Hm.
  destruct (year_points c1 c2 c3 c4) eqn:Hy;
    [| rewrite andb_false_r in Hm; discriminate Hm].
  destruct (_ && _ && _)%bool in Hm; [| discriminate Hm].
  injection Hm as <-.
  unfold year_points, point_is, point_in in Hy.
  rewrite !andb_true_iff, orb_true_iff, !andb_true_iff, !N.eqb_eq, !N.leb_le in Hy.
  destruct Hy as [[-> ->] H34].
  destruct H34 as [[-> H4] | [-> H4]].
  - assert (Hcases : c4 = 56%N \/ c4 = 57%N) by lia.
    destruct Hcases as [-> | ->]; cbn; tauto.
  - assert (Hcases : c4 = 48%N \/ c4 = 49%N \/ c4 = 50%N \/ c4 = 51%N \/ c4 = 52%N) by lia.
    destruct Hcases as [-> | [-> | [-> | [-> | ->]]]]; cbn; tauto.
Qed.

Lemma scan_years_range (s : text) :
  forall before year,
  In year (scan_years is_alnum before s) ->
  In year (map points_of ["2018"; "2019"; "2020"; "2021"; "2022"; "2023"; "2024"]).
Proof.
  induction s as [| c s IH]; intros before year Hin; [destruct Hin |].
  cbn [scan_years] in Hin. apply in_app_or in Hin. destruct Hin as [Hin | Hin].
  - destruct (match_year_at is_alnum before (c :: s)) as [group |] eqn:Hm; [| destruct Hin].
    destruct Hin as [<- | []]. eapply match_year_at_range, Hm.
  - eapply IH, Hin.
Qed.

End TextYears.

(** *** ASCII questions as text *)

Section AsciiAsText.

Variable is_alnum : N -> bool.
Hypothesis ascii_table : alnum_on_ascii is_alnum.

Lemma ascii_digits_are_alnum (c : N) : point_in 48 57 c = true -> is_alnum c = true.
Proof.
  intros H. rewrite ascii_table.
  - unfold ascii_alnum. now rewrite H.
  - unfold point_in in H. rewrite andb_true_iff, !N.leb_le in H. lia.
Qed.

Lemma is_word_char_point (c : ascii) :
  (N_of_ascii c < 128)%N -> is_word_point is_alnum (N_of_ascii c) = is_word_char c.
Proof.
  intros Hc. unfold is_word_point, is_word_char, is_alpha, is_upper, is_lower, is_digit.
  rewrite (ascii_table _ Hc), ascii_eqb_code.
  change (N_of_ascii "_") with 95%N.
  unfold ascii_alnum, in_range, point_in. cbv zeta.
  destruct (N.leb 48 (N_of_ascii c) && N.leb (N_of_ascii c) 57)%bool,
           (N.leb 65 (N_of_ascii c) && N.leb (N_of_ascii c) 90)%bool,
           (N.leb 97 (N_of_ascii c) && N.leb (N_of_ascii c) 122)%bool;
    reflexivity.
Qed.

Lemma is_word_point_of_char (c : option ascii) :
  ascii_or_none c -> is_word_at is_alnum (point_of_char c) = is_word c.
Proof.
  intros Hc. destruct c as [x |]; [| reflexivity].
  apply is_word_char_point. now apply Hc.
Qed.

Lemma boundary_point_of_char (before after : option ascii) :
  ascii_or_none before -> ascii_or_none after ->
  boundary_at is_alnum (point_of_char before) (point_of_char after)
  = word_boundary before after.
Proof.
  intros Hb Ha. unfold boundary_at, word_boundary.
  now rewrite !is_word_point_of_char.
Qed.

Lemma year_chars_points (c1 c2 c3 c4 : ascii) :
  year_points (N_of_ascii c1) (N_of_ascii c2) (N_of_ascii c3) (N_of_ascii c4)
  = year_chars c1 c2 c3 c4.
Proof.
  unfold year_chars, is_char. rewrite !ascii_eqb_code. reflexivity.
Qed.

Lemma is_ascii_cons (c : ascii) (s : string) :
  is_ascii (String c s) = true <-> (N_of_ascii c < 128)%N /\ is_ascii s = true.
Proof.
  unfold is_ascii. cbn [list_ascii_of_string forallb].
  now rewrite andb_true_iff, N.ltb_lt.
Qed.

Lemma head_char_ascii (s : string) : is_ascii s = true -> ascii_or_none (head_char s).
Proof.
  intros Hs x Hx. destruct s as [| c s]; [discriminate Hx |].
  injection Hx as <-. now apply is_ascii_cons in Hs.
Qed.

Lemma hd_points_of (s : string) : hd_error (points_of s) = point_of_char (head_char s).
Proof. destruct s; reflexivity. Qed.

(** On an ASCII question the pattern matches on the text where it
    matches on the string, with the same group. *)
Lemma match_year_points_of (before : option ascii) (s : string) :
  ascii_or_none before -> is_ascii s = true ->
  match_year_at is_alnum (point_of_char before) (points_of s)
  = option_map points_of (match_year before s).
Proof.
  intros Hb Hs.
  destruct s as [| c1 [| c2 [| c3 [| c4 rest]]]];
    try (rewrite match_year_at_short, match_year_short by reflexivity; reflexivity).
  apply is_ascii_cons in Hs. destruct Hs as (H1 & Hs).
  apply is_ascii_cons in Hs. destruct Hs as (H2 & Hs).
  apply is_ascii_cons in Hs. destruct Hs as (H3 & Hs).
  apply is_ascii_cons in Hs. destruct Hs as (H4 & Hs).
  change (points_of (String c1 (String c2 (String c3 (String c4 rest)))))
    with (N_of_ascii c1 :: N_of_ascii c2 :: N_of_ascii c3 :: N_of_ascii c4 :: points_of rest).
  rewrite match_year_at_points, match_year_chars, year_chars_points, hd_points_of.
  change (Some (N_of_ascii c1)) with (point_of_char (Some c1)).
  change (Some (N_of_ascii c4)) with (point_of_char (Some c4)).
  rewrite !boundary_point_of_char;
    try (intros x Hx; injection Hx as <-; assumption);
    try assumption; try (now apply head_char_ascii).
  destruct (_ && _ && _)%bool; reflexivity.
Qed.

Lemma findall_years_points_of (s : string) :
  forall before skip,
  ascii_or_none before -> is_ascii s = true ->
  findall_years_at is_alnum (point_of_char before) skip (points_of s)
  = map points_of (findall_years before skip s).
Proof.
  induction s as [| c s IH]; intros before skip Hb Hs; [reflexivity |].
  pose proof Hs as Hall. apply is_ascii_cons in Hs. destruct Hs as (Hc & Hs).
  assert (Hnext : ascii_or_none (Some c)) by (intros x Hx; injection Hx as <-; exact Hc).
  change (points_of (String c s)) with (N_of_ascii c :: points_of s).
  cbn [findall_years_at findall_years].
  change (N_of_ascii c :: points_of s) with (points_of (String c s)).
  change (Some (N_of_ascii c)) with (point_of_char (Some c)).
  destruct skip as [| skip]; [| now apply IH].
  rewrite (match_year_points_of _ _ Hb Hall).
  destruct (match_year before (String c s)); cbn [option_map map];
    now rewrite IH.
Qed.

End AsciiAsText.

(** C5.  For every question, as the text of its code points, the years
    that [re.findall] returns are exactly the word-bounded four-digit
    tokens of the question whose value lies in 2018..2024, in their
    order of occurrence, and no token outside that range is ever
    extracted: every extracted year is one of 2018, ..., 2024.  This
    holds whatever the Unicode table of alphanumeric characters is
    beyond ASCII.  On a question of ASCII characters the years of the
    extracted entities are these years. *)
Theorem years_are_year_tokens (is_alnum : N -> bool) :
  alnum_on_ascii is_alnum ->
  (forall question : text,
     re_findall_years_text is_alnum question = year_tokens_text is_alnum question /\
     forall year,
       In year (re_findall_years_text is_alnum question) ->
       In year (map points_of ["2018"; "2019"; "2020"; "2021"; "2022"; "2023"; "2024"])) /\
  (forall question : string,
     is_ascii question = true ->
     map points_of (years (extract_entities question))
     = re_findall_years_text is_alnum (points_of question)).
Proof.
  intros Htable. split.
  - intros question. unfold re_findall_years_text, year_tokens_text.
    rewrite (findall_years_at_scan is_alnum (ascii_digits_are_alnum is_alnum Htable))
      by (destruct question; exact I).
    split.
    + rewrite (scan_years_tokens is_alnum (ascii_digits_are_alnum is_alnum Htable)).
      reflexivity.
    + intros year. apply scan_years_range.
  - intros question Hascii. unfold extract_entities. cbn [years].
    unfold re_findall_years, re_findall_years_text.
    change (@None N) with (point_of_char None).
    symmetry. apply (findall_years_points_of is_alnum Htable); [| exact Hascii].
    intros x Hx. discriminate Hx.
Qed.

Lemma years_are_year_tokens_witness :
  year_tokens_text latin1_alnum
    (points_of "caf" ++ [233%N] ++ points_of "2020 and 2019" ++ [233%N]
     ++ points_of ", 2018-2024 but not 2017 or 20205")%list
  = [points_of "2018"; points_of "2024"] /\
  map points_of (years (extract_entities "Rainfall 2018-2024, not 2017, 20205 or x2019"))
  = [points_of "2018"; points_of "2024"].
Proof.
  assert (Htable : alnum_on_ascii latin1_alnum).
  { intros c Hc. unfold latin1_alnum, point_is, point_in.
    repeat match goal with
           | |- context [N.eqb c ?n] =>
               replace (N.eqb c n) with false by (symmetry; apply N.eqb_neq; lia)
           | |- context [N.leb ?n c] =>
               lazymatch n with
               | 48%N => fail | 65%N => fail | 97%N => fail
               | _ => replace (N.leb n c) with false by (symmetry; apply N.leb_gt; lia)
               end
           end.
    cbn [andb orb]. rewrite !orb_false_r. reflexivity. }
  destruct (years_are_year_tokens latin1_alnum Htable) as (Htext & Hstring).
  split.
  - rewrite <- (proj1 (Htext _)). vm_compute. reflexivity.
  - rewrite Hstring by (vm_compute; reflexivity). vm_compute. reflexivity.
Defined.

(* ------------------------------------------------------------------ *)
(** ** Arithmetic that cannot raise *)

Lemma truediv_ok (a b : Q) : ~ (b == 0)%Q -> truediv a b = Ok (Qred (a / b)).
Proof.
  intros Hb. unfold truediv.
  destruct (Qeq_bool b 0) eqn:E; [| reflexivity].
  apply Qeq_bool_eq in E. contradiction.
Qed.

Lemma inject_Z_nonzero (n : Z) : n <> 0 -> ~ (inject_Z n == 0)%Q.
Proof.
  intros Hn H. apply Hn. unfold Qeq in H. simpl in H. lia.
Qed.

Lemma len_cons {A : Type} (x : A) (l : list A) : 0 < len (x :: l).
Proof. unfold len. simpl List.length. lia. Qed.

Lemma len_nonzero {A : Type} (l : list A) : l <> [] -> ~ (inject_Z (len l) == 0)%Q.
Proof.
  intros Hl. apply inject_Z_nonzero.
  destruct l as [| x l]; [congruence |]. pose proof (len_cons x l). lia.
Qed.

Lemma average_or_nonempty (values : list Z) (default : Q) :
  values <> [] ->
  average_or values default
  = Ok (Qred (inject_Z (sum values) / inject_Z (len values))).
Proof.
  intros Hne. destruct values as [| v values]; [congruence |].
  unfold average_or. apply truediv_ok. now apply len_nonzero.
Qed.

Lemma average_or_total (values : list Z) (default : Q) :
  exists average, average_or values default = Ok average.
Proof.
  destruct values as [| v values].
  - now exists default.
  - eexists. apply average_or_nonempty. discriminate.
Qed.

Lemma calculate_variance_total (data : list Z) :
  exists variance, calculate_variance data = Ok variance.
Proof.
  unfold calculate_variance.
  destruct (len data =? 0) eqn:E; [now eexists |].
  apply Z.eqb_neq in E.
  rewrite (truediv_ok _ _ (inject_Z_nonzero _ E)). cbn [bind].
  rewrite (truediv_ok _ _ (inject_Z_nonzero _ E)). now eexists.
Qed.

Lemma is_positive_nonzero (x : Q) : is_positive x = true -> ~ (x == 0)%Q.
Proof.
  unfold is_positive. intros H Hx.
  apply negb_true_iff in H.
  assert (Hle : Qle_bool x 0 = true) by (apply Qle_bool_iff; rewrite Hx; apply Qle_refl).
  congruence.
Qed.

Lemma is_positive_iff (x : Q) : is_positive x = true <-> (0 < x)%Q.
Proof.
  unfold is_positive. rewrite negb_true_iff.
  split.
  - intros H. apply Qnot_le_lt. intros Hle.
    apply Qle_bool_iff in Hle. congruence.
  - intros H. destruct (Qle_bool x 0) eqn:E; [| reflexivity].
    apply Qle_bool_iff in E. exfalso. eapply Qlt_not_le; eassumption.
Qed.

(* ------------------------------------------------------------------ *)
(** ** The policy-argument generator *)

Lemma resilience_ratio_total (production_data : dict Z) (drought_years : list string)
    (avg_production : Q) :
  exists ratio, resilience_ratio production_data drought_years avg_production = Ok ratio.
Proof.
  unfold resilience_ratio.
  destruct (average_or_total (drought_performance production_data drought_years) 0%Q)
    as (avg_drought & ->).
  destruct (average_or_total (normal_performance production_data drought_years) avg_production)
    as (avg_normal & ->).
  cbn [bind].
  destruct (is_positive avg_normal) eqn:Hpos; [| now eexists].
  rewrite (truediv_ok _ _ (is_positive_nonzero _ Hpos)). now eexists.
Qed.

Lemma stability_step_total (crop_data : dict (dict Z)) (drought_years : list string)
    (stability_data : dict CropStability) (crop : string) :
  exists stability_data',
    stability_step crop_data drought_years stability_data crop = Ok stability_data'.
Proof.
  unfold stability_step.
  destruct (dict_get crop_data crop) as [production_data |]; [| now eexists].
  destruct (1 <? len (dict_values production_data)) eqn:Hlen; [| now eexists].
  apply Z.ltb_lt in Hlen.
  destruct (calculate_variance_total (dict_values production_data)) as (variance & ->).
  cbn [bind].
  rewrite truediv_ok by (apply inject_Z_nonzero; lia). cbn [bind].
  destruct (resilience_ratio_total production_data drought_years
              (Qred (inject_Z (sum (dict_values production_data))
                     / inject_Z (len (dict_values production_data)))))
    as (ratio & ->).
  now eexists.
Qed.

Lemma recommended_step_total (water_req_data : dict string) (answer crop : string) :
  exists answer', recommended_step water_req_data answer crop = Ok answer'.
Proof.
  unfold recommended_step. destruct (dict_get water_req_data crop); now eexists.
Qed.

Lemma recommended_step_extends (water_req_data : dict string) :
  extends (recommended_step water_req_data).
Proof.
  intros text crop text'. unfold recommended_step.
  destruct (dict_get water_req_data crop); intros H; injection H as <-.
  - now eexists.
  - exists "". now rewrite append_nil_r.
Qed.

(** The policy generator returns on every input and every pair of
    tables, and this is what it returns. *)
Lemma generate_policy_arguments_shape
    (agricultural_data : dict StateAgriculture) (climate_data : dict StateClimate)
    (entities : Entities) :
  let state := target_state entities in
  exists avg_rainfall stability_data text agriculture climate,
    average_or (dict_values (rainfall_data_of climate_data state)) 0%Q = Ok avg_rainfall /\
    for_each (stability_step (crop_data_of agricultural_data state)
                             (drought_years_in climate_data state))
             ["Bajra"; "Guar"; "Rice"; "Wheat"] [] = Ok stability_data /\
    dict_get DATA_SOURCES "agriculture" = Some agriculture /\
    dict_get DATA_SOURCES "climate" = Some climate /\
    generate_policy_arguments agricultural_data climate_data entities
    = Ok {| answer := policy_heading ++ text;
            data_points :=
              PolicyPoints avg_rainfall (drought_years_in climate_data state)
                (climate_zone_in climate_data state) stability_data
                (fold_left
                   (fun d crop =>
                      dict_set d crop
                        (dict_get_default (water_req_data_of agricultural_data state)
                                          crop "Unknown"))
                   ["Bajra"; "Guar"; "Rice"; "Wheat"] []);
            sources := [agriculture; climate] |}.
Proof.
  intros state.
  destruct (average_or_total (dict_values (rainfall_data_of climate_data state)) 0%Q)
    as (avg_rainfall & Havg).
  destruct (for_each_total
              (stability_step (crop_data_of agricultural_data state)
                              (drought_years_in climate_data state))
              ["Bajra"; "Guar"; "Rice"; "Wheat"]
              (fun s x _ => stability_step_total _ _ s x) [])
    as (stability_data & Hstab).
  destruct cited_sources_fixed as (agriculture & climate & Hag & Hcl & Hsrc).
  unfold generate_policy_arguments. fold state.
  rewrite Havg. cbn [bind app].
  rewrite Hstab. cbn [bind].
  set (recommend := for_each (recommended_step _) _).
  unfold enumerate_from_1.
  cbn [List.length seq combine for_each argument_step Nat.eqb arg_data arg_title
       arg_content bind].
  subst recommend.
  match goal with
  | |- context [for_each (recommended_step ?w) ?l ?a] =>
      destruct (for_each_total (recommended_step w) l
                  (fun s x _ => recommended_step_total w s x) a) as (final & Hfinal);
      pose proof (for_each_extends _ (recommended_step_extends w) _ _ _ Hfinal)
        as (tail & Htail);
      rewrite Hfinal
  end.
  cbn [bind]. rewrite Hsrc. cbn [bind].
  exists avg_rainfall, stability_data.
  rewrite Htail. unfold policy_heading.
  rewrite !append_assoc.
  eexists. exists agriculture, climate.
  repeat split; try assumption; reflexivity.
Qed.

(* ------------------------------------------------------------------ *)
(** ** Dictionaries *)

Lemma dict_get_set_same {V : Type} (d : dict V) (key : string) (v : V) :
  dict_get (dict_set d key v) key = Some v.
Proof.
  induction d as [| [k w] d IH]; cbn [dict_set dict_get].
  - now rewrite String.eqb_refl.
  - destruct (String.eqb k key) eqn:E; cbn [dict_get]; rewrite E; [reflexivity | exact IH].
Qed.

Lemma dict_get_set_other {V : Type} (d : dict V) (key key' : string) (v : V) :
  key <> key' -> dict_get (dict_set d key v) key' = dict_get d key'.
Proof.
  intros Hne. induction d as [| [k w] d IH]; cbn [dict_set dict_get].
  - apply String.eqb_neq in Hne. now rewrite Hne.
  - destruct (String.eqb k key) eqn:E; cbn [dict_get].
    + apply String.eqb_eq in E. subst k.
      apply String.eqb_neq in Hne. now rewrite Hne.
    + now rewrite IH.
Qed.

Lemma has_key_set {V : Type} (d : dict V) (key key' : string) (v : V) :
  key' = key \/ has_key d key' -> has_key (dict_set d key v) key'.
Proof.
  unfold has_key. intros H.
  destruct (string_dec key key') as [<- | Hne].
  - rewrite dict_get_set_same. discriminate.
  - rewrite dict_get_set_other by exact Hne. destruct H; congruence.
Qed.

Lemma in_dict_set {V : Type} (d : dict V) (key k : string) (v w : V) :
  In (k, w) (dict_set d key v) -> (k = key /\ w = v) \/ In (k, w) d.
Proof.
  induction d as [| [k0 w0] d IH]; cbn [dict_set].
  - intros [H | []]. injection H as <- <-. now left.
  - destruct (String.eqb k0 key) eqn:E.
    + apply String.eqb_eq in E. subst k0.
      intros [H | H]; [injection H as <- <-; now left | right; now right].
    + intros [H | H]; [right; now left |].
      destruct (IH H) as [? | ?]; [now left | right; now right].
Qed.

Lemma dict_get_key {V : Type} (d : dict V) (key : string) :
  In key (dict_keys d) -> exists v, dict_get d key = Some v.
Proof.
  unfold dict_keys.
  induction d as [| [k w] d IH]; cbn [map dict_get fst]; [intros [] |].
  intros [-> | H].
  - rewrite String.eqb_refl. now eexists.
  - destruct (String.eqb k key); [now eexists | now apply IH].
Qed.

Lemma dict_has_true {V : Type} (d : dict V) (key : string) :
  dict_has d key = true -> exists v, dict_get d key = Some v.
Proof.
  unfold dict_has. destruct (dict_get d key) as [v |]; [now eexists | discriminate].
Qed.

Lemma dict_item_get {V : Type} (d : dict V) (key : string) (v : V) :
  dict_get d key = Some v -> dict_item d key = Ok v.
Proof. unfold dict_item. now intros ->. Qed.

(* ------------------------------------------------------------------ *)
(** ** Sorting the year labels *)

Lemma insert_sorted_perm (x : string) (l : list string) :
  Permutation (x :: l) (insert_sorted x l).
Proof.
  induction l as [| y l IH]; cbn [insert_sorted]; [apply Permutation_refl |].
  destruct (String.leb x y); [apply Permutation_refl |].
  eapply perm_trans; [apply perm_swap | now apply perm_skip].
Qed.

Lemma sorted_perm (l : list string) : Permutation l (sorted l).
Proof.
  induction l as [| x l IH]; cbn [sorted fold_right]; [apply perm_nil |].
  eapply perm_trans; [apply perm_skip, IH | apply insert_sorted_perm].
Qed.

Lemma insert_sorted_sorted (x : string) (l : list string) :
  Sorted string_le l -> Sorted string_le (insert_sorted x l).
Proof.
  induction l as [| y l IH]; cbn [insert_sorted]; intros Hs.
  - repeat constructor.
  - destruct (String.leb x y) eqn:E.
    + constructor; [exact Hs | constructor; exact E].
    + inversion Hs as [| ? ? Hs' Hhd]; subst.
      constructor; [now apply IH |].
      assert (Hyx : string_le y x).
      { destruct (String.leb_total x y) as [H | H]; [congruence | exact H]. }
      destruct l as [| z l]; cbn [insert_sorted].
      * constructor. exact Hyx.
      * destruct (String.leb x z); constructor; [exact Hyx |].
        now inversion Hhd.
Qed.

Lemma sorted_sorted (l : list string) : Sorted string_le (sorted l).
Proof.
  induction l as [| x l IH]; cbn [sorted fold_right]; [constructor |].
  now apply insert_sorted_sorted.
Qed.

(* ------------------------------------------------------------------ *)
(** ** The comparison generator *)

Section Comparison.

Variable agricultural_data : dict StateAgriculture.
Variable climate_data : dict StateClimate.

Lemma crop_data_of_get (state crop : string) (production : dict Z) :
  dict_get (crop_data_of agricultural_data state) crop = Some production ->
  exists agriculture,
    dict_get agricultural_data state = Some agriculture /\
    dict_get (crops_of agriculture) crop = Some production.
Proof.
  unfold crop_data_of.
  destruct (dict_get agricultural_data state) as [agriculture |]; cbn [dict_get].
  - intros H. now exists agriculture.
  - discriminate.
Qed.

(** Collecting one crop keeps every recorded series tied to the table
    and loses no state. *)
Lemma collect_crop_step_ok (state crop : string) (comparison_data : dict StateComparison) :
  from_table agricultural_data comparison_data ->
  has_key comparison_data state ->
  exists comparison_data',
    collect_crop_step agricultural_data state comparison_data crop = Ok comparison_data' /\
    from_table agricultural_data comparison_data' /\
    (forall s, has_key comparison_data s -> has_key comparison_data' s).
Proof.
  intros Hft Hkey. unfold collect_crop_step.
  destruct (dict_has (crop_data_of agricultural_data state) crop) eqn:Hhas.
  - apply dict_has_true in Hhas. destruct Hhas as (production & Hprod).
    destruct (crop_data_of_get _ _ _ Hprod) as (agriculture & Hag & Hcrop).
    rewrite (dict_item_get _ _ _ Hag). cbn [bind].
    rewrite (dict_item_get _ _ _ Hcrop). cbn [bind].
    unfold record_production, has_key in *.
    destruct (dict_get comparison_data state) as [entry |] eqn:Hentry; [| congruence].
    rewrite (dict_item_get _ _ _ Hentry). cbn [bind].
    eexists. split; [reflexivity |]. split.
    + intros s e c p Hget Hin.
      destruct (string_dec state s) as [<- | Hne].
      * rewrite dict_get_set_same in Hget. injection Hget as <-.
        cbn [crop_production] in Hin.
        apply in_dict_set in Hin. destruct Hin as [[-> ->] | Hin].
        -- exact Hprod.
        -- eapply Hft; eassumption.
      * rewrite dict_get_set_other in Hget by exact Hne.
        eapply Hft; eassumption.
    + intros s Hs. apply has_key_set. now right.
  - exists comparison_data. repeat split; auto.
Qed.

Lemma collect_crops_ok (state : string) (crops : list string) :
  forall comparison_data,
  from_table agricultural_data comparison_data ->
  has_key comparison_data state ->
  exists comparison_data',
    for_each (collect_crop_step agricultural_data state) crops comparison_data
    = Ok comparison_data' /\
    from_table agricultural_data comparison_data' /\
    (forall s, has_key comparison_data s -> has_key comparison_data' s).
Proof.
  induction crops as [| crop crops IH]; intros comparison_data Hft Hkey; cbn [for_each].
  - exists comparison_data. auto.
  - destruct (collect_crop_step_ok state crop _ Hft Hkey) as (cd1 & -> & Hft1 & Hkeep1).
    cbn [bind].
    destruct (IH cd1 Hft1 (Hkeep1 _ Hkey)) as (cd2 & -> & Hft2 & Hkeep2).
    exists cd2. auto.
Qed.

Lemma collect_state_step_ok (crops : list string) (state : string)
    (comparison_data : dict StateComparison) :
  from_table agricultural_data comparison_data ->
  exists comparison_data',
    collect_state_step agricultural_data climate_data crops comparison_data state
    = Ok comparison_data' /\
    from_table agricultural_data comparison_data' /\
    has_key comparison_data' state /\
    (forall s, has_key comparison_data s -> has_key comparison_data' s).
Proof.
  intros Hft. unfold collect_state_step.
  match goal with
  | |- context [for_each _ crops ?start] =>
      assert (Hft0 : from_table agricultural_data start);
      [| assert (Hkey0 : has_key start state) by (apply has_key_set; now left);
         destruct (collect_crops_ok state crops start Hft0 Hkey0)
           as (cd' & Hrun & Hft' & Hkeep) ]
  end.
  - intros s e c p Hget Hin.
    destruct (string_dec state s) as [<- | Hne].
    + rewrite dict_get_set_same in Hget. injection Hget as <-. destruct Hin.
    + rewrite dict_get_set_other in Hget by exact Hne. eapply Hft; eassumption.
  - exists cd'. repeat split; auto.
    intros s Hs. apply Hkeep, has_key_set. now right.
Qed.

Lemma collect_states_ok (crops states : list string) :
  forall comparison_data,
  from_table agricultural_data comparison_data ->
  exists comparison_data',
    for_each (collect_state_step agricultural_data climate_data crops) states comparison_data
    = Ok comparison_data' /\
    from_table agricultural_data comparison_data' /\
    (forall s, In s states \/ has_key comparison_data s -> has_key comparison_data' s).
Proof.
  induction states as [| state states IH]; intros comparison_data Hft; cbn [for_each].
  - exists comparison_data. repeat split; auto. intros s [[] | Hs]. exact Hs.
  - destruct (collect_state_step_ok crops state _ Hft) as (cd1 & -> & Hft1 & Hkey1 & Hkeep1).
    cbn [bind].
    destruct (IH cd1 Hft1) as (cd2 & -> & Hft2 & Hkeep2).
    exists cd2. repeat split; auto.
    intros s [[<- | Hin] | Hs]; apply Hkeep2; auto.
Qed.

Lemma crop_line_step_extends (state : string) :
  extends (crop_line_step agricultural_data state).
Proof.
  intros text [crop production] text' H. unfold crop_line_step in H.
  apply bind_ok in H. destruct H as (avg & _ & H).
  apply bind_ok in H. destruct H as (agriculture & _ & H).
  injection H as <-. now eexists.
Qed.

Lemma state_section_step_extends (comparison_data : dict StateComparison) :
  extends (state_section_step agricultural_data comparison_data).
Proof.
  intros text state text' H. unfold state_section_step in H.
  apply bind_ok in H. destruct H as (entry & _ & H).
  apply bind_ok in H. destruct H as (avg & _ & H).
  apply bind_ok in H. destruct H as (body & Hbody & H).
  injection H as <-.
  apply (for_each_extends _ (crop_line_step_extends state)) in Hbody.
  destruct Hbody as (tail & ->).
  rewrite !append_assoc. now eexists.
Qed.

(** Whatever the tables, a comparison that is returned opens with the
    comparison heading. *)
Lemma generate_comparison_heading (entities : Entities) (result : Answer) :
  generate_comparison agricultural_data climate_data entities = Ok result ->
  exists text, answer result = comparison_heading ++ text.
Proof.
  unfold generate_comparison. intros H.
  apply bind_ok in H. destruct H as (cd & _ & H).
  apply bind_ok in H. destruct H as (text & Htext & H).
  apply bind_ok in H. destruct H as (srcs & _ & H).
  injection H as <-. cbn [answer].
  apply (for_each_extends _ (state_section_step_extends cd)) in Htext.
  destruct Htext as (tail & ->).
  unfold comparison_heading. rewrite !append_assoc. now eexists.
Qed.

Hypothesis series_recorded : series_nonempty agricultural_data.

Lemma crop_line_step_total (state answer crop : string) (production : dict Z) :
  dict_get (crop_data_of agricultural_data state) crop = Some production ->
  exists answer', crop_line_step agricultural_data state answer (crop, production) = Ok answer'.
Proof.
  intros Hprod. unfold crop_line_step.
  destruct (crop_data_of_get _ _ _ Hprod) as (agriculture & Hag & Hcrop).
  rewrite truediv_ok
    by (apply len_nonzero; eapply series_recorded; eassumption).
  cbn [bind]. rewrite (dict_item_get _ _ _ Hag). cbn [bind]. now eexists.
Qed.

Lemma state_section_step_total (comparison_data : dict StateComparison)
    (answer state : string) :
  from_table agricultural_data comparison_data ->
  has_key comparison_data state ->
  exists answer', state_section_step agricultural_data comparison_data answer state = Ok answer'.
Proof.
  intros Hft Hkey. unfold state_section_step, has_key in *.
  destruct (dict_get comparison_data state) as [entry |] eqn:Hentry; [| congruence].
  rewrite (dict_item_get _ _ _ Hentry). cbn [bind].
  destruct (average_or_total (dict_values (rainfall entry)) 0%Q) as (avg & ->).
  cbn [bind].
  match goal with
  | |- context [for_each ?body (crop_production entry) ?start] =>
      destruct (for_each_total body (crop_production entry)) with (s := start)
        as (body_text & ->)
  end.
  - intros text [crop production] Hin.
    apply crop_line_step_total. eapply Hft; eassumption.
  - cbn [bind]. now eexists.
Qed.

(** Over tables without empty series the comparison generator returns
    on every input, and this is what it returns. *)
Lemma generate_comparison_shape (entities : Entities) :
  let states := or_default (states entities) ["rajasthan"; "punjab"] in
  let crops := or_default (crops entities) ["Bajra"; "Wheat"] in
  exists comparison_data text agriculture climate,
    for_each (collect_state_step agricultural_data climate_data crops) states []
    = Ok comparison_data /\
    from_table agricultural_data comparison_data /\
    dict_get DATA_SOURCES "agriculture" = Some agriculture /\
    dict_get DATA_SOURCES "climate" = Some climate /\
    generate_comparison agricultural_data climate_data entities
    = Ok {| answer := comparison_heading ++ text;
            data_points := ComparisonPoints comparison_data;
            sources := [agriculture; climate] |}.
Proof.
  intros states crops.
  destruct (collect_states_ok crops states [])
    as (cd & Hcd & Hft & Hkeys).
  { intros s e c p Hget. discriminate Hget. }
  destruct cited_sources_fixed as (agriculture & climate & Hag & Hcl & Hsrc).
  assert (Htotal : exists result,
             generate_comparison agricultural_data climate_data entities = Ok result /\
             data_points result = ComparisonPoints cd /\
             sources result = [agriculture; climate]).
  { unfold generate_comparison. fold states crops. rewrite Hcd. cbn [bind].
    match goal with
    | |- context [for_each ?body states ?start] =>
        destruct (for_each_total body states) with (s := start) as (text & ->)
    end.
    - intros text state Hin. apply state_section_step_total; [exact Hft |].
      apply Hkeys. now left.
    - cbn [bind]. rewrite Hsrc. cbn [bind]. eexists. repeat split. }
  destruct Htotal as (result & Hres & Hdp & Hsources).
  destruct (generate_comparison_heading _ _ Hres) as (text & Htext).
  exists cd, text, agriculture, climate. repeat split; try assumption.
  rewrite Hres. f_equal. destruct result as [a d s]. cbn in *. congruence.
Qed.

End Comparison.

(* ------------------------------------------------------------------ *)
(** ** The trend generator *)

Lemma last_cons {A : Type} (l : list A) :
  forall x d, List.last (x :: l) d = List.last l x.
Proof.
  induction l as [| y l IH]; intros x d; [reflexivity |].
  change (List.last (x :: y :: l) d) with (List.last (y :: l) d).
  rewrite (IH y d), (IH y x). reflexivity.
Qed.

Lemma last_item_last {A : Type} (l : list A) :
  forall x, last_item (x :: l) = Ok (List.last l x).
Proof.
  induction l as [| y l IH]; intros x; [reflexivity |].
  change (last_item (x :: y :: l)) with (last_item (y :: l)).
  rewrite IH. now rewrite last_cons.
Qed.

(** The trend of a non-empty series: last minus first, over the number
    of values. *)
Lemma linear_trend_cons (first : Z) (rest : list Z) :
  linear_trend (first :: rest)
  = Ok (Qred (inject_Z (List.last rest first - first) / inject_Z (len (first :: rest)))).
Proof.
  unfold linear_trend. rewrite last_item_last. cbn [bind first_item].
  apply truediv_ok, len_nonzero. discriminate.
Qed.

Lemma direction_increasing (trend : Q) :
  direction trend = "Increasing" <-> (0 < trend)%Q.
Proof.
  unfold direction. rewrite <- is_positive_iff.
  destruct (is_positive trend); split; intros H; try reflexivity; discriminate H.
Qed.

Lemma direction_decreasing (trend : Q) :
  direction trend = "Decreasing" <-> (trend <= 0)%Q.
Proof.
  unfold direction.
  destruct (is_positive trend) eqn:E; split; intros H; try reflexivity; try discriminate H.
  - apply is_positive_iff in E. exfalso. eapply Qlt_not_le; eassumption.
  - apply Qnot_lt_le. intros Hlt. apply is_positive_iff in Hlt. congruence.
Qed.

(** Reading a series in the order of a list of its own year labels. *)
Lemma read_years (production_data : dict Z) (labels : list string) :
  (forall year, In year labels -> In year (dict_keys production_data)) ->
  forall values,
  exists read,
    for_each (fun values year =>
                production <- dict_item production_data year ;;
                Ok (values ++ [production])%list) labels values
    = Ok (values ++ read)%list /\
    Forall2 (fun year production => dict_get production_data year = Some production)
            labels read.
Proof.
  induction labels as [| year labels IH]; intros Hkeys values; cbn [for_each].
  - exists []. split; [now rewrite app_nil_r | constructor].
  - destruct (dict_get_key production_data year) as (production & Hget).
    { apply Hkeys. now left. }
    rewrite (dict_item_get _ _ _ Hget). cbn [bind].
    destruct (IH (fun y Hy => Hkeys y (or_intror Hy)) (values ++ [production])%list)
      as (read & -> & Hread).
    exists (production :: read). split.
    + now rewrite <- app_assoc.
    + now constructor.
Qed.

(** The values the trend of a crop is computed over: the series read in
    ascending order of its year labels. *)
Lemma values_by_year_sorted (production_data : dict Z) :
  exists values,
    values_by_year production_data = Ok values /\
    Forall2 (fun year production => dict_get production_data year = Some production)
            (sorted (dict_keys production_data)) values.
Proof.
  unfold values_by_year.
  destruct (read_years production_data (sorted (dict_keys production_data))) with (values := @nil Z)
    as (read & Hrun & Hread).
  - intros year Hin. eapply Permutation_in; [| exact Hin].
    apply Permutation_sym, sorted_perm.
  - exists read. split; [exact Hrun | exact Hread].
Qed.

Lemma sorted_nonempty (l : list string) : l <> [] -> sorted l <> [].
Proof.
  intros Hl Hs. apply Hl.
  apply Permutation_nil. rewrite <- Hs. apply Permutation_sym, sorted_perm.
Qed.

Lemma crop_trend_step_extends (crop_data : dict (dict Z)) :
  extends (crop_trend_step crop_data).
Proof.
  intros text crop text' H. unfold crop_trend_step in H.
  destruct (dict_get crop_data crop) as [production_data |].
  - apply bind_ok in H. destruct H as (values & _ & H).
    apply bind_ok in H. destruct H as (trend & _ & H).
    injection H as <-. now eexists.
  - injection H as <-. exists "". now rewrite append_nil_r.
Qed.

(** For a crop with a non-empty series the step prints its line, for
    the trend of the series read in ascending order of year label. *)
Lemma crop_trend_step_line (crop_data : dict (dict Z)) (crop : string)
    (production_data : dict Z) :
  dict_get crop_data crop = Some production_data ->
  production_data <> [] ->
  exists values production_trend,
    Forall2 (fun year production => dict_get production_data year = Some production)
            (sorted (dict_keys production_data)) values /\
    linear_trend values = Ok production_trend /\
    forall answer,
      crop_trend_step crop_data answer crop
      = Ok (answer ++ crop_trend_line crop production_trend).
Proof.
  intros Hget Hne.
  destruct (values_by_year_sorted production_data) as (values & Hvalues & Hread).
  destruct values as [| first rest].
  - exfalso. inversion Hread as [Hs |]. symmetry in Hs.
    revert Hs. apply sorted_nonempty.
    unfold dict_keys. destruct production_data; [congruence | discriminate].
  - exists (first :: rest). eexists. split; [exact Hread |].
    split; [apply linear_trend_cons |].
    intros answer. unfold crop_trend_step. rewrite Hget, Hvalues. cbn [bind].
    rewrite linear_trend_cons. cbn [bind]. reflexivity.
Qed.

Section Trend.

Variable agricultural_data : dict StateAgriculture.
Variable climate_data : dict StateClimate.

Lemma collect_trend_step_total (state crop : string) (crop_trends : dict (dict Z)) :
  exists crop_trends',
    collect_trend_step agricultural_data state crop_trends crop = Ok crop_trends'.
Proof.
  unfold collect_trend_step.
  destruct (dict_has (crop_data_of agricultural_data state) crop) eqn:Hhas; [| now eexists].
  apply dict_has_true in Hhas. destruct Hhas as (production & Hprod).
  destruct (crop_data_of_get _ _ _ _ Hprod) as (agriculture & Hag & Hcrop).
  rewrite (dict_item_get _ _ _ Hag). cbn [bind].
  rewrite (dict_item_get _ _ _ Hcrop). cbn [bind]. now eexists.
Qed.

Lemma rainfall_trend_text_total (state answer : string) :
  exists text,
    rainfall_trend_text climate_data state answer
      (dict_values (rainfall_data_of climate_data state))
    = Ok (answer ++ text).
Proof.
  unfold rainfall_trend_text, rainfall_data_of.
  destruct (dict_get climate_data state) as [climate |] eqn:Hclimate.
  - destruct (1 <? len (dict_values (rainfall_of climate))) eqn:Hlen.
    + destruct (dict_values (rainfall_of climate)) as [| first rest] eqn:Hvalues;
        [discriminate Hlen |].
      rewrite linear_trend_cons. cbn [bind].
      rewrite (dict_item_get _ _ _ Hclimate). cbn [bind].
      rewrite !append_assoc. now eexists.
    + exists "". now rewrite append_nil_r.
  - cbn. exists "". now rewrite append_nil_r.
Qed.

Hypothesis series_recorded : series_nonempty agricultural_data.

Lemma crop_trend_step_total (state answer crop : string) :
  exists answer',
    crop_trend_step (crop_data_of agricultural_data state) answer crop = Ok answer'.
Proof.
  destruct (dict_get (crop_data_of agricultural_data state) crop)
    as [production_data |] eqn:Hget.
  - destruct (crop_data_of_get _ _ _ _ Hget) as (agriculture & Hag & Hcrop).
    destruct (crop_trend_step_line _ _ _ Hget) as (values & trend & _ & _ & Hline).
    { eapply series_recorded; eassumption. }
    rewrite Hline. now eexists.
  - unfold crop_trend_step. rewrite Hget. now eexists.
Qed.

(** Over tables without empty series the trend generator returns on
    every input, and this is what it returns. *)
Lemma generate_trend_analysis_shape (entities : Entities) :
  let state := target_state entities in
  let crops := or_default (crops entities) ["Bajra"; "Wheat"] in
  exists crop_trends rain_text crop_text agriculture climate,
    rainfall_trend_text climate_data state
      (trend_heading ++ title state ++ " (2018-2022)" ++ LF ++ LF)
      (dict_values (rainfall_data_of climate_data state))
    = Ok (trend_heading ++ rain_text) /\
    for_each (crop_trend_step (crop_data_of agricultural_data state)) crops
             (trend_heading ++ rain_text ++ "### Crop Production Trends" ++ LF)
    = Ok (trend_heading ++ rain_text ++ "### Crop Production Trends" ++ LF ++ crop_text) /\
    dict_get DATA_SOURCES "agriculture" = Some agriculture /\
    dict_get DATA_SOURCES "climate" = Some climate /\
    generate_trend_analysis agricultural_data climate_data entities
    = Ok {| answer := trend_heading ++ rain_text ++ "### Crop Production Trends" ++ LF
                      ++ crop_text;
            data_points := TrendPoints (rainfall_data_of climate_data state) crop_trends;
            sources := [agriculture; climate] |}.
Proof.
  intros state crops.
  destruct (for_each_total (collect_trend_step agricultural_data state) crops
              (fun s x _ => collect_trend_step_total state x s) [])
    as (crop_trends & Htrends).
  destruct (rainfall_trend_text_total state
              (trend_heading ++ title state ++ " (2018-2022)" ++ LF ++ LF))
    as (rain & Hrain).
  rewrite append_assoc in Hrain.
  set (rain_text := (title state ++ " (2018-2022)" ++ LF ++ LF) ++ rain) in *.
  destruct (for_each_total (crop_trend_step (crop_data_of agricultural_data state)) crops
              (fun s x _ => crop_trend_step_total state s x)
              (trend_heading ++ rain_text ++ "### Crop Production Trends" ++ LF))
    as (final & Hfinal).
  destruct (for_each_extends _ (crop_trend_step_extends _) _ _ _ Hfinal) as (crop_text & ->).
  rewrite !append_assoc in Hfinal.
  destruct cited_sources_fixed as (agriculture & climate & Hag & Hcl & Hsrc).
  exists crop_trends, rain_text, crop_text, agriculture, climate.
  repeat split; try assumption.
  unfold generate_trend_analysis. fold state crops.
  rewrite Htrends. cbn [bind].
  change ("## Trend Analysis for " ++ title state ++ " (2018-2022)" ++ LF ++ LF)
    with (trend_heading ++ title state ++ " (2018-2022)" ++ LF ++ LF).
  rewrite Hrain. cbn [bind].
  rewrite !append_assoc. rewrite Hfinal. cbn [bind].
  rewrite Hsrc. cbn [bind]. reflexivity.
Qed.

End Trend.

(* ------------------------------------------------------------------ *)
(** ** The program over its own tables *)

Lemma AGRICULTURAL_DATA_series : series_nonempty AGRICULTURAL_DATA.
Proof.
  intros state agriculture crop production Hstate Hcrop.
  unfold AGRICULTURAL_DATA in Hstate. cbn [dict_get] in Hstate.
  repeat match type of Hstate with
         | (if ?test then _ else _) = _ =>
             destruct test; [injection Hstate as <-; cbn [crops_of dict_get] in Hcrop |]
         end;
    try discriminate Hstate;
    repeat match type of Hcrop with
           | (if ?test then _ else _) = _ =>
               destruct test; [injection Hcrop as <-; discriminate |]
           end;
    discriminate Hcrop.
Qed.

(** C2.  Over the program's tables no generator and no dispatch ever
    raises, whatever entities and question they are given, in particular
    for states and crops the tables do not have; and a comparison
    records for a state only series that the table has for it, so a crop
    the state lacks is skipped. *)
Theorem generators_never_raise (entities : Entities) (question : string) :
  (exists result,
     generate_policy_arguments AGRICULTURAL_DATA CLIMATE_DATA entities = Ok result) /\
  (exists result comparison_data,
     generate_comparison AGRICULTURAL_DATA CLIMATE_DATA entities = Ok result /\
     data_points result = ComparisonPoints comparison_data /\
     from_table AGRICULTURAL_DATA comparison_data) /\
  (exists result,
     generate_trend_analysis AGRICULTURAL_DATA CLIMATE_DATA entities = Ok result) /\
  (exists result,
     generate_answer AGRICULTURAL_DATA CLIMATE_DATA entities question = Ok result) /\
  (exists result, ask_question question = Ok result).
Proof.
  assert (Hpolicy : forall e, exists result,
             generate_policy_arguments AGRICULTURAL_DATA CLIMATE_DATA e = Ok result).
  { intros e.
    destruct (generate_policy_arguments_shape AGRICULTURAL_DATA CLIMATE_DATA e)
      as (? & ? & ? & ? & ? & _ & _ & _ & _ & ->). now eexists. }
  assert (Hcomparison : forall e, exists result comparison_data,
             generate_comparison AGRICULTURAL_DATA CLIMATE_DATA e = Ok result /\
             data_points result = ComparisonPoints comparison_data /\
             from_table AGRICULTURAL_DATA comparison_data).
  { intros e.
    destruct (generate_comparison_shape AGRICULTURAL_DATA CLIMATE_DATA
                AGRICULTURAL_DATA_series e)
      as (cd & ? & ? & ? & _ & Hft & _ & _ & ->).
    eexists. exists cd. repeat split. exact Hft. }
  assert (Htrend : forall e, exists result,
             generate_trend_analysis AGRICULTURAL_DATA CLIMATE_DATA e = Ok result).
  { intros e.
    destruct (generate_trend_analysis_shape AGRICULTURAL_DATA CLIMATE_DATA
                AGRICULTURAL_DATA_series e)
      as (? & ? & ? & ? & ? & _ & _ & _ & _ & ->). now eexists. }
  assert (Hanswer : forall e q, exists result,
             generate_answer AGRICULTURAL_DATA CLIMATE_DATA e q = Ok result).
  { intros e q. unfold generate_answer.
    destruct (Hcomparison e) as (r & _ & Hr & _).
    repeat match goal with
           | |- context [if ?test then _ else _] => destruct test
           end; auto; now exists r. }
  repeat split; auto.
  unfold ask_question. apply Hanswer.
Qed.

(** C9.  Over the program's tables every generator, and so the
    dispatcher, returns on every input an answer whose sources are the
    two fixed citation records, the agriculture one before the climate
    one. *)
Theorem answers_cite_fixed_sources (entities : Entities) (question : string) :
  let agriculture :=
    {| name := "Ministry of Agriculture - Crop Production Statistics";
       url := "https://data.gov.in/resource/all-india-season-wise-crop-production-statistics";
       description := "State-wise and crop-wise production data from 2018-2022" |} in
  let climate :=
    {| name := "India Meteorological Department - Rainfall Data";
       url := "https://data.gov.in/resource/district-wise-rainfall-normal";
       description := "Historical rainfall patterns and climate data from 2018-2022" |} in
  (exists result,
     generate_policy_arguments AGRICULTURAL_DATA CLIMATE_DATA entities = Ok result /\
     sources result = [agriculture; climate]) /\
  (exists result,
     generate_comparison AGRICULTURAL_DATA CLIMATE_DATA entities = Ok result /\
     sources result = [agriculture; climate]) /\
  (exists result,
     generate_trend_analysis AGRICULTURAL_DATA CLIMATE_DATA entities = Ok result /\
     sources result = [agriculture; climate]) /\
  (exists result,
     generate_answer AGRICULTURAL_DATA CLIMATE_DATA entities question = Ok result /\
     sources result = [agriculture; climate]).
Proof.
  intros agriculture climate.
  assert (Hpolicy : exists result,
             generate_policy_arguments AGRICULTURAL_DATA CLIMATE_DATA entities = Ok result /\
             sources result = [agriculture; climate]).
  { destruct (generate_policy_arguments_shape AGRICULTURAL_DATA CLIMATE_DATA entities)
      as (? & ? & ? & a & c & _ & _ & Ha & Hc & ->).
    eexists. split; [reflexivity |]. cbn [sources].
    cbn in Ha, Hc. injection Ha as <-. injection Hc as <-. reflexivity. }
  assert (Hcomparison : exists result,
             generate_comparison AGRICULTURAL_DATA CLIMATE_DATA entities = Ok result /\
             sources result = [agriculture; climate]).
  { destruct (generate_comparison_shape AGRICULTURAL_DATA CLIMATE_DATA
                AGRICULTURAL_DATA_series entities)
      as (? & ? & a & c & _ & _ & Ha & Hc & ->).
    eexists. split; [reflexivity |]. cbn [sources].
    cbn in Ha, Hc. injection Ha as <-. injection Hc as <-. reflexivity. }
  assert (Htrend : exists result,
             generate_trend_analysis AGRICULTURAL_DATA CLIMATE_DATA entities = Ok result /\
             sources result = [agriculture; climate]).
  { destruct (generate_trend_analysis_shape AGRICULTURAL_DATA CLIMATE_DATA
                AGRICULTURAL_DATA_series entities)
      as (? & ? & ? & a & c & _ & _ & Ha & Hc & ->).
    eexists. split; [reflexivity |]. cbn [sources].
    cbn in Ha, Hc. injection Ha as <-. injection Hc as <-. reflexivity. }
  repeat split; auto.
  unfold generate_answer.
  repeat match goal with
         | |- context [if ?test then _ else _] => destruct test
         end; assumption.
Qed.

(* ------------------------------------------------------------------ *)
(** ** Dispatch *)

Lemma intent_is_true (entities : Entities) (intent : string) :
  intent_is entities intent = true <-> comparison_type entities = Some intent.
Proof.
  unfold intent_is. destruct (comparison_type entities) as [found |].
  - rewrite String.eqb_eq. split; [now intros -> | now intros [= ->]].
  - split; discriminate.
Qed.

Lemma intent_is_false (entities : Entities) (intent : string) :
  comparison_type entities <> Some intent -> intent_is entities intent = false.
Proof.
  intros H. destruct (intent_is entities intent) eqn:E; [| reflexivity].
  apply intent_is_true in E. contradiction.
Qed.

(** The policy report and the comparison report never coincide: they
    open with different headings. *)
Lemma policy_is_not_comparison
    (agricultural_data : dict StateAgriculture) (climate_data : dict StateClimate)
    (entities : Entities) :
  generate_policy_arguments agricultural_data climate_data entities
  <> generate_comparison agricultural_data climate_data entities.
Proof.
  destruct (generate_policy_arguments_shape agricultural_data climate_data entities)
    as (? & ? & text & ? & ? & _ & _ & _ & _ & Hpolicy).
  rewrite Hpolicy. intros Heq. symmetry in Heq.
  destruct (generate_comparison_heading _ _ _ _ Heq) as (text' & Htext).
  cbn [answer] in Htext. discriminate Htext.
Qed.

(** C3.  The dispatcher hands the entities to the policy-argument
    generator for intent policy_arguments, to the comparison generator
    for intent comparison and to the trend generator for intent trend;
    for any other intent it hands them to the policy-argument generator
    when the lower-cased question contains "drought", "resistant",
    "promote" or "argument", and to the comparison generator when it
    contains none of them.  The two fallback targets never return the
    same thing, so the choice between them is exactly that test. *)
Theorem dispatch_routes
    (agricultural_data : dict StateAgriculture) (climate_data : dict StateClimate)
    (entities : Entities) (question : string) :
  let policy := generate_policy_arguments agricultural_data climate_data entities in
  let comparison := generate_comparison agricultural_data climate_data entities in
  let trend := generate_trend_analysis agricultural_data climate_data entities in
  let routed := generate_answer agricultural_data climate_data entities question in
  let mentions := str_contains (lower question) in
  (comparison_type entities = Some "policy_arguments" -> routed = policy) /\
  (comparison_type entities = Some "comparison" -> routed = comparison) /\
  (comparison_type entities = Some "trend" -> routed = trend) /\
  (comparison_type entities <> Some "policy_arguments" ->
   comparison_type entities <> Some "comparison" ->
   comparison_type entities <> Some "trend" ->
   (mentions "drought" = true \/ mentions "resistant" = true \/
    mentions "promote" = true \/ mentions "argument" = true ->
    routed = policy) /\
   (mentions "drought" = false -> mentions "resistant" = false ->
    mentions "promote" = false -> mentions "argument" = false ->
    routed = comparison)) /\
  policy <> comparison.
Proof.
  cbv zeta. unfold generate_answer.
  split; [| split; [| split; [| split]]].
  - intros H. apply intent_is_true in H. now rewrite H.
  - intros H. rewrite intent_is_false by (rewrite H; discriminate).
    apply intent_is_true in H. now rewrite H.
  - intros H. rewrite !intent_is_false by (rewrite H; discriminate).
    apply intent_is_true in H. now rewrite H.
  - intros H1 H2 H3. rewrite !intent_is_false by assumption.
    cbn [existsb]. split.
    + intros [-> | [-> | [-> | ->]]]; now rewrite ?orb_true_r.
    + intros -> -> -> ->. reflexivity.
  - apply policy_is_not_comparison.
Qed.

Lemma dispatch_routes_witness :
  generate_answer AGRICULTURAL_DATA CLIMATE_DATA
    (extract_entities "Is Bajra drought resistant enough for Haryana?")
    "Is Bajra drought resistant enough for Haryana?"
  = generate_policy_arguments AGRICULTURAL_DATA CLIMATE_DATA
      (extract_entities "Is Bajra drought resistant enough for Haryana?").
Proof.
  apply (dispatch_routes AGRICULTURAL_DATA CLIMATE_DATA
           (extract_entities "Is Bajra drought resistant enough for Haryana?")
           "Is Bajra drought resistant enough for Haryana?").
  - vm_compute. discriminate.
  - vm_compute. discriminate.
  - vm_compute. discriminate.
  - left. vm_compute. reflexivity.
Defined.

(* ------------------------------------------------------------------ *)
(** ** Trends *)

(** A loop whose body only extends the text, and which for [x] adds
    [piece], leaves [piece] in the final text. *)
Lemma for_each_emits {A : Type} (body : string -> A -> result string)
    (x : A) (piece : string) :
  extends body ->
  (forall text, body text x = Ok (text ++ piece)) ->
  forall l, In x l ->
  forall start final, for_each body l start = Ok final ->
  exists before after, final = before ++ piece ++ after.
Proof.
  intros Hext Hpiece l. induction l as [| y l IH]; intros Hin start final Hrun; [destruct Hin |].
  cbn [for_each] in Hrun. apply bind_ok in Hrun. destruct Hrun as (mid & Hstep & Hrest).
  destruct Hin as [-> | Hin].
  - rewrite Hpiece in Hstep. injection Hstep as <-.
    apply (for_each_extends _ Hext) in Hrest. destruct Hrest as (tail & ->).
    exists start, tail. apply append_assoc.
  - eapply IH; eassumption.
Qed.

(** C6.  The trend of a series of at least two values is its last
    value minus its first, divided by the number of values and not by
    one less, for values within the range of floats; on the rainfall of
    Rajasthan this is (410 - 450) / 5 = -8, which the trend report
    prints as a decrease of 8.0mm per year. *)
Theorem linear_trend_divides_by_length :
  (forall values : list Z,
     2 <= len values ->
     forallb in_float_range values = true ->
     exists first last trend,
       first_item values = Ok first /\
       last_item values = Ok last /\
       linear_trend values = Ok trend /\
       (trend == inject_Z (last - first) / inject_Z (len values))%Q) /\
  (rainfall_data_of CLIMATE_DATA "rajasthan"
   = [("2018", 450); ("2019", 380); ("2020", 320); ("2021", 290); ("2022", 410)] /\
   linear_trend [450; 380; 320; 290; 410] = Ok (-8 # 1)%Q /\
   (-8 # 1 == inject_Z (410 - 450) / inject_Z 5)%Q) /\
  (forall entities : Entities,
     target_state entities = "rajasthan" ->
     exists result after,
       generate_trend_analysis AGRICULTURAL_DATA CLIMATE_DATA entities = Ok result /\
       answer result
       = "## Trend Analysis for Rajasthan (2018-2022)" ++ LF ++ LF
         ++ "### Climate Trends" ++ LF
         ++ "- **Rainfall Trend**: " ++ mark_down ++ " Decreasing by 8.0mm per year" ++ LF
         ++ after).
Proof.
  split; [| split].
  - intros values Hlen _.
    destruct values as [| first rest]; [unfold len in Hlen; simpl in Hlen; lia |].
    exists first, (List.last rest first). eexists.
    split; [reflexivity |]. split; [apply last_item_last |].
    split; [apply linear_trend_cons |]. apply Qred_correct.
  - repeat split.
  - intros entities Hstate.
    pose proof (generate_trend_analysis_shape AGRICULTURAL_DATA CLIMATE_DATA
                  AGRICULTURAL_DATA_series entities) as Hshape.
    cbv zeta in Hshape. rewrite Hstate in Hshape.
    destruct Hshape as (crop_trends & rain_text & crop_text & ? & ? & Hrain & _ & _ & _ & ->).
    vm_compute in Hrain. injection Hrain as <-.
    eexists. eexists. split; [reflexivity |].
    cbn [answer]. vm_compute trend_heading. vm_compute LF. vm_compute mark_down.
    cbn [append]. reflexivity.
Qed.

Lemma linear_trend_divides_by_length_witness :
  exists first last trend,
    first_item [450; 380; 320; 290; 410] = Ok first /\
    last_item [450; 380; 320; 290; 410] = Ok last /\
    linear_trend [450; 380; 320; 290; 410] = Ok trend /\
    (trend == inject_Z (last - first) / inject_Z (len [450; 380; 320; 290; 410]))%Q.
Proof.
  apply (proj1 linear_trend_divides_by_length [450; 380; 320; 290; 410]).
  - vm_compute. discriminate.
  - vm_compute. reflexivity.
Defined.

(** What a returned trend report was built from. *)
Lemma trend_report_parts
    (agricultural_data : dict StateAgriculture) (climate_data : dict StateClimate)
    (entities : Entities) (result : Answer) :
  generate_trend_analysis agricultural_data climate_data entities = Ok result ->
  exists rain_answer,
    rainfall_trend_text climate_data (target_state entities)
      (trend_heading ++ title (target_state entities) ++ " (2018-2022)" ++ LF ++ LF)
      (dict_values (rainfall_data_of climate_data (target_state entities)))
    = Ok rain_answer /\
    for_each (crop_trend_step (crop_data_of agricultural_data (target_state entities)))
             (or_default (crops entities) ["Bajra"; "Wheat"])
             (rain_answer ++ "### Crop Production Trends" ++ LF)
    = Ok (answer result).
Proof.
  unfold generate_trend_analysis. intros Hresult.
  apply bind_ok in Hresult. destruct Hresult as (ct & _ & Hresult).
  apply bind_ok in Hresult. destruct Hresult as (rain & Hrain & Hresult).
  apply bind_ok in Hresult. destruct Hresult as (text & Htext & Hresult).
  apply bind_ok in Hresult. destruct Hresult as (srcs & _ & Hresult).
  injection Hresult as <-. exists rain. split; [exact Hrain | exact Htext].
Qed.

(** In a loop that ran to its end every step ran. *)
Lemma for_each_ran {A S : Type} (body : S -> A -> result S) (l : list A) (x : A) :
  In x l ->
  forall s final, for_each body l s = Ok final ->
  exists before after, body before x = Ok after.
Proof.
  induction l as [| y l IH]; intros Hin s final Hrun; [destruct Hin |].
  cbn [for_each] in Hrun. apply bind_ok in Hrun. destruct Hrun as (mid & Hstep & Hrest).
  destruct Hin as [-> | Hin].
  - now exists s, mid.
  - eapply IH; eassumption.
Qed.

(** C7.  For every requested crop that the table of the target state
    has, a trend report that is returned reads the production values in
    ascending order of year label, computes their trend, and prints
    "Increasing" exactly when the trend is greater than 0 and
    "Decreasing" otherwise, so also for a trend of exactly 0.  This is
    stated for any tables with figures in the range of floats; the
    digits printed for the magnitude are left open. *)
Theorem crop_trend_direction
    (agricultural_data : dict StateAgriculture) (climate_data : dict StateClimate)
    (entities : Entities) (result : Answer) (crop : string) (production_data : dict Z) :
  tables_in_float_range agricultural_data climate_data = true ->
  generate_trend_analysis agricultural_data climate_data entities = Ok result ->
  In crop (or_default (crops entities) ["Bajra"; "Wheat"]) ->
  dict_get (crop_data_of agricultural_data (target_state entities)) crop
  = Some production_data ->
  exists ordered_years values production_trend before magnitude after,
    Permutation (dict_keys production_data) ordered_years /\
    Sorted string_le ordered_years /\
    Forall2 (fun year production => dict_get production_data year = Some production)
            ordered_years values /\
    linear_trend values = Ok production_trend /\
    answer result
    = before ++ "- **" ++ crop ++ "**: "
      ++ (if is_positive production_trend then icon_up else icon_down) ++ " "
      ++ direction production_trend ++ " by " ++ magnitude
      ++ " thousand tonnes/year" ++ LF ++ after /\
    (direction production_trend = "Increasing" <-> (0 < production_trend)%Q) /\
    (direction production_trend = "Decreasing" <-> (production_trend <= 0)%Q) /\
    direction 0%Q = "Decreasing".
Proof.
  intros _ Hresult Hrequested Hpresent.
  destruct (trend_report_parts _ _ _ _ Hresult) as (rain_answer & _ & Hloop).
  assert (Hseries : production_data <> []).
  { intros ->.
    destruct (for_each_ran _ _ _ Hrequested _ _ Hloop) as (s0 & s1 & Hstep).
    unfold crop_trend_step in Hstep. rewrite Hpresent in Hstep. discriminate Hstep. }
  destruct (crop_trend_step_line _ _ _ Hpresent Hseries)
    as (values & trend & Hread & Htrend & Hline).
  destruct (for_each_emits _ crop (crop_trend_line crop trend)
              (crop_trend_step_extends _) Hline _ Hrequested _ _ Hloop)
    as (before & after & Hanswer).
  exists (sorted (dict_keys production_data)), values, trend.
  exists before, (fmt_1f (Qabs trend)), after.
  split; [apply sorted_perm |].
  split; [apply sorted_sorted |].
  split; [exact Hread |].
  split; [exact Htrend |].
  split.
  - rewrite Hanswer. unfold crop_trend_line.
    rewrite !append_assoc. reflexivity.
  - split; [apply direction_increasing |]. split; [apply direction_decreasing | reflexivity].
Qed.

Lemma crop_trend_direction_witness :
  let agricultural_data :=
    [("punjab",
      {| crops_of := [("Wheat", [("2020", 30); ("2018", 10); ("2019", 20)])];
         water_requirements_of := [("Wheat", "High (500-600mm)")] |})] in
  let entities := extract_entities "What is the trend of wheat in Punjab?" in
  exists result,
    generate_trend_analysis agricultural_data CLIMATE_DATA entities = Ok result /\
    str_contains (answer result) ("- **Wheat**: " ++ icon_up ++ " Increasing by ") = true /\
    exists ordered_years values production_trend before magnitude after,
      Permutation ["2020"; "2018"; "2019"] ordered_years /\
      Sorted string_le ordered_years /\
      Forall2 (fun year production =>
                 dict_get [("2020", 30); ("2018", 10); ("2019", 20)] year = Some production)
              ordered_years values /\
      linear_trend values = Ok production_trend /\
      answer result
      = before ++ "- **" ++ "Wheat" ++ "**: "
        ++ (if is_positive production_trend then icon_up else icon_down) ++ " "
        ++ direction production_trend ++ " by " ++ magnitude
        ++ " thousand tonnes/year" ++ LF ++ after /\
      (direction production_trend = "Increasing" <-> (0 < production_trend)%Q) /\
      (direction production_trend = "Decreasing" <-> (production_trend <= 0)%Q) /\
      direction 0%Q = "Decreasing".
Proof.
  intros agricultural_data entities.
  eassert (Hresult : generate_trend_analysis agricultural_data CLIMATE_DATA entities = Ok _)
    by (vm_compute; reflexivity).
  eexists. split; [exact Hresult |].
  split; [vm_compute; reflexivity |].
  apply (crop_trend_direction agricultural_data CLIMATE_DATA entities _ "Wheat"
           [("2020", 30); ("2018", 10); ("2019", 20)] eq_refl Hresult).
  - vm_compute. left. reflexivity.
  - vm_compute. reflexivity.
Defined.

(* ------------------------------------------------------------------ *)
(** ** The default comparison *)

(** C8.  With no state and no crop extracted the comparison generator
    compares Rajasthan and Punjab on Bajra and Wheat, and in that run
    the average it reports for Bajra in Punjab over 2018-2022 is
    (800 + 750 + 700 + 650 + 680) / 5 = 716. *)
Theorem comparison_defaults (entities : Entities) :
  states entities = [] ->
  crops entities = [] ->
  exists result comparison_data punjab,
    generate_comparison AGRICULTURAL_DATA CLIMATE_DATA entities = Ok result /\
    generate_comparison AGRICULTURAL_DATA CLIMATE_DATA entities
    = generate_comparison AGRICULTURAL_DATA CLIMATE_DATA
        {| states := ["rajasthan"; "punjab"];
           crops := ["Bajra"; "Wheat"];
           years := years entities;
           metrics := metrics entities;
           comparison_type := comparison_type entities |} /\
    data_points result = ComparisonPoints comparison_data /\
    dict_keys comparison_data = ["rajasthan"; "punjab"] /\
    Forall (fun item => dict_keys (crop_production (snd item)) = ["Bajra"; "Wheat"])
           comparison_data /\
    dict_get comparison_data "punjab" = Some punjab /\
    dict_get (crop_production punjab) "Bajra"
    = Some [("2018", 800); ("2019", 750); ("2020", 700); ("2021", 650); ("2022", 680)] /\
    crop_line_step AGRICULTURAL_DATA "punjab" ""
      ("Bajra", [("2018", 800); ("2019", 750); ("2020", 700); ("2021", 650); ("2022", 680)])
    = Ok ("- **Bajra**: " ++ fmt_comma_0f (716 # 1)
          ++ " thousand tonnes (Water: Low (350-400mm))" ++ LF) /\
    fmt_comma_0f (716 # 1) = "716" /\
    (716 # 1 == inject_Z (800 + 750 + 700 + 650 + 680) / inject_Z 5)%Q /\
    str_contains (answer result)
      ("### Punjab" ++ LF
       ++ "- **Climate Zone**: Semi-Arid" ++ LF
       ++ "- **Average Rainfall**: 610.0mm" ++ LF
       ++ "- **Bajra**: 716 thousand tonnes (Water: Low (350-400mm))" ++ LF)
    = true.
Proof.
  destruct entities as [sts crs yrs mts intent]. cbn [states crops years metrics comparison_type].
  intros -> ->.
  eexists. eexists. eexists.
  split; [vm_compute; reflexivity |].
  split; [reflexivity |].
  split; [reflexivity |].
  split; [reflexivity |].
  split; [repeat constructor |].
  split; [reflexivity |].
  split; [reflexivity |].
  split; [vm_compute; reflexivity |].
  split; [vm_compute; reflexivity |].
  split; [reflexivity |].
  vm_compute. reflexivity.
Qed.

Lemma comparison_defaults_witness :
  exists result,
    generate_comparison AGRICULTURAL_DATA CLIMATE_DATA
      (extract_entities "Which crops should farmers grow?") = Ok result /\
    str_contains (answer result)
      ("- **Bajra**: 716 thousand tonnes (Water: Low (350-400mm))" ++ LF) = true.
Proof.
  destruct (comparison_defaults (extract_entities "Which crops should farmers grow?"))
    as (result & comparison_data & punjab & Hresult & _ & _ & _ & _ & _ & _ & _ & _ & _ & _).
  - vm_compute. reflexivity.
  - vm_compute. reflexivity.
  - exists result. split; [exact Hresult |].
    vm_compute in Hresult. injection Hresult as <-. vm_compute. reflexivity.
Defined.

(* ------------------------------------------------------------------ *)
(** ** The drought resilience ratio *)




















(* ------------------------------------------------------------------ *)
(** ** Worked examples

    The behaviours the specification lists as testable, evaluated on
    the embedding. *)

Example compare_question_entities :
  let entities := extract_entities "Compare crop production in Rajasthan and Punjab" in
  comparison_type entities = Some "comparison" /\
  states entities = ["rajasthan"; "punjab"].
Proof. vm_compute. split; reflexivity. Qed.

Example variance_of_nothing : calculate_variance [] = Ok 0%Q.
Proof. reflexivity. Qed.

Example variance_of_one_value : calculate_variance [4500] = Ok 0%Q.
Proof. vm_compute. reflexivity. Qed.

Example policy_arguments_for_rajasthan :
  exists result,
    generate_policy_arguments AGRICULTURAL_DATA CLIMATE_DATA
      {| states := ["rajasthan"]; crops := []; years := []; metrics := [];
         comparison_type := None |} = Ok result /\
    str_contains (answer result) "Rajasthan" = true /\
    str_contains (answer result) ("- Recent Drought Years: 2020, 2021" ++ LF) = true /\
    str_contains (answer result) ("- **Bajra**: Low (350-400mm) water requirement" ++ LF)
    = true.
Proof. eexists. split; [vm_compute; reflexivity |]. vm_compute. repeat split. Qed.

Example unknown_question_is_compared :
  comparison_type (extract_entities "Hello there") = None /\
  ask_question "Hello there"
  = generate_comparison AGRICULTURAL_DATA CLIMATE_DATA
      {| states := []; crops := []; years := []; metrics := []; comparison_type := None |}.
Proof. vm_compute. split; reflexivity. Qed.

Example trend_for_a_state_without_data :
  exists result,
    ask_question "Rice trend in Gujarat" = Ok result /\
    answer result
    = "## Trend Analysis for Gujarat (2018-2022)" ++ LF ++ LF
      ++ "### Crop Production Trends" ++ LF /\
    data_points result = TrendPoints [] [].
Proof. eexists. split; [vm_compute; reflexivity |]. vm_compute. split; reflexivity. Qed.

(* ------------------------------------------------------------------ *)
(** * Further properties of the code *)

(** ** The variance *)

Lemma sum_from (l : list Z) (start : Z) : fold_left Z.add l start = start + sum l.
Proof.
  unfold sum. revert start. induction l as [| x l IH]; intros start; cbn [fold_left].
  - lia.
  - rewrite (IH (start + x)), (IH (0 + x)). lia.
Qed.

Lemma sum_repeat (c : Z) (n : nat) : sum (repeat c n) = c * Z.of_nat n.
Proof.
  induction n as [| n IH].
  - unfold sum. cbn. lia.
  - cbn [repeat]. unfold sum. cbn [fold_left]. rewrite sum_from, IH. lia.
Qed.

Lemma Qred_zero (q : Q) : (q == 0)%Q -> Qred q = 0%Q.
Proof. intros H. now rewrite (Qred_complete _ _ H). Qed.

Lemma fsum_from_nonneg (l : list Q) :
  (forall q, In q l -> (0 <= q)%Q) ->
  forall start, (0 <= start)%Q -> (0 <= fold_left fadd l start)%Q.
Proof.
  induction l as [| x l IH]; intros Hl start Hstart; cbn [fold_left]; [exact Hstart |].
  apply IH; [intros q Hq; apply Hl; now right |].
  unfold fadd. rewrite Qred_correct.
  replace 0%Q with (0 + 0)%Q by reflexivity.
  apply Qplus_le_compat; [exact Hstart | apply Hl; now left].
Qed.

Lemma fsum_from_zeros (l : list Q) :
  (forall q, In q l -> q = 0%Q) -> fold_left fadd l 0%Q = 0%Q.
Proof.
  induction l as [| x l IH]; intros Hl; cbn [fold_left]; [reflexivity |].
  rewrite (Hl x (or_introl eq_refl)). change (fadd 0 0) with 0%Q.
  apply IH. intros q Hq. apply Hl. now right.
Qed.

Lemma square_nonneg (d : Q) : (0 <= fmul d d)%Q.
Proof.
  unfold fmul. rewrite Qred_correct.
  unfold Qle, Qmult. cbn. nia.
Qed.

(** X1.  For a series of values within the range of floats the
    variance is computed without raising, it is never negative, and it
    is exactly 0 for a series whose values are all the same, in
    particular for an empty series and for a series of one value. *)
Theorem calculate_variance_nonnegative :
  (forall data : list Z,
     forallb in_float_range data = true ->
     exists variance, calculate_variance data = Ok variance /\ (0 <= variance)%Q) /\
  (forall (value : Z) (count : nat),
     in_float_range value = true ->
     calculate_variance (repeat value count) = Ok 0%Q).
Proof.
  split.
  - intros data _. unfold calculate_variance.
    destruct (len data =? 0) eqn:E.
    + exists 0%Q. split; [reflexivity | apply Qle_refl].
    + apply Z.eqb_neq in E.
      rewrite (truediv_ok _ _ (inject_Z_nonzero _ E)). cbn [bind].
      rewrite (truediv_ok _ _ (inject_Z_nonzero _ E)).
      eexists. split; [reflexivity |].
      rewrite Qred_correct.
      apply Qle_shift_div_l.
      * unfold Qlt. cbn. unfold len in *. lia.
      * rewrite Qmult_0_l. unfold fsum. apply fsum_from_nonneg; [| apply Qle_refl].
        intros q Hq. apply in_map_iff in Hq. destruct Hq as (x & <- & _).
        cbv zeta. apply square_nonneg.
  - intros value count _. unfold calculate_variance.
    destruct (len (repeat value count) =? 0) eqn:E; [reflexivity |].
    apply Z.eqb_neq in E.
    rewrite (truediv_ok _ _ (inject_Z_nonzero _ E)). cbn [bind].
    rewrite (truediv_ok _ _ (inject_Z_nonzero _ E)).
    f_equal. apply Qred_zero.
    assert (Hmean : Qred (inject_Z (sum (repeat value count))
                          / inject_Z (len (repeat value count)))
                    = Qred (inject_Z value)).
    { apply Qred_complete. rewrite sum_repeat. unfold len in *.
      rewrite repeat_length in *.
      rewrite inject_Z_mult. field.
      intros H. apply E. unfold Qeq in H. cbn in H. lia. }
    rewrite Hmean.
    unfold fsum. rewrite fsum_from_zeros.
    + unfold Qdiv. apply Qmult_0_l.
    + intros q Hq. apply in_map_iff in Hq. destruct Hq as (x & <- & Hx).
      apply repeat_spec in Hx. subst x. cbv zeta.
      assert (Hd : fsub (inject_Z value) (Qred (inject_Z value)) = 0%Q).
      { unfold fsub. apply Qred_zero. rewrite Qred_correct. ring. }
      rewrite Hd. reflexivity.
Qed.

Lemma calculate_variance_nonnegative_witness :
  (exists variance,
     calculate_variance [4500; 4200; 3800; 3500; 4000] = Ok variance /\
     (0 <= variance)%Q) /\
  calculate_variance (repeat 4500 3) = Ok 0%Q.
Proof.
  split.
  - apply (proj1 calculate_variance_nonnegative [4500; 4200; 3800; 3500; 4000]).
    vm_compute. reflexivity.
  - apply (proj2 calculate_variance_nonnegative 4500 3%nat).
    vm_compute. reflexivity.
Defined.

(** ** Extraction and letter case *)

Ltac by_cases_on_char c :=
  destruct c as [[] [] [] [] [] [] [] []]; reflexivity.

Lemma to_lower_idempotent (c : ascii) : to_lower (to_lower c) = to_lower c.
Proof. by_cases_on_char c. Qed.

Lemma is_word_char_to_lower (c : ascii) : is_word_char (to_lower c) = is_word_char c.
Proof. by_cases_on_char c. Qed.

Lemma year_class_to_lower (c : ascii) :
  is_char "2" (to_lower c) = is_char "2" c /\
  is_char "0" (to_lower c) = is_char "0" c /\
  is_char "1" (to_lower c) = is_char "1" c /\
  in_range 56 57 (to_lower c) = in_range 56 57 c /\
  in_range 48 52 (to_lower c) = in_range 48 52 c.
Proof. repeat split; by_cases_on_char c. Qed.

Lemma digit_to_lower (c : ascii) : is_digit c = true -> to_lower c = c.
Proof.
  unfold to_lower, is_upper, is_digit, in_range. cbv zeta.
  rewrite andb_true_iff, !N.leb_le. intros H.
  destruct (_ && _)%bool eqn:E; [| reflexivity].
  rewrite andb_true_iff, !N.leb_le in E. lia.
Qed.

Lemma lower_idempotent (s : string) : lower (lower s) = lower s.
Proof.
  induction s as [| c s IH]; cbn [lower]; [reflexivity |].
  now rewrite to_lower_idempotent, IH.
Qed.

Lemma is_word_lower_char (c : option ascii) : is_word (lower_char c) = is_word c.
Proof. destruct c as [c |]; [apply is_word_char_to_lower | reflexivity]. Qed.

Lemma head_char_lower (s : string) : head_char (lower s) = lower_char (head_char s).
Proof. destruct s; reflexivity. Qed.

Lemma word_boundary_lower (before after : option ascii) :
  word_boundary (lower_char before) (lower_char after) = word_boundary before after.
Proof. unfold word_boundary. now rewrite !is_word_lower_char. Qed.

Lemma year_chars_to_lower (c1 c2 c3 c4 : ascii) :
  year_chars (to_lower c1) (to_lower c2) (to_lower c3) (to_lower c4)
  = year_chars c1 c2 c3 c4.
Proof.
  unfold year_chars.
  destruct (year_class_to_lower c1) as (-> & _).
  destruct (year_class_to_lower c2) as (_ & -> & _).
  destruct (year_class_to_lower c3) as (-> & _ & -> & _).
  destruct (year_class_to_lower c4) as (_ & _ & _ & -> & ->).
  reflexivity.
Qed.

Lemma year_chars_are_digits (c1 c2 c3 c4 : ascii) :
  year_chars c1 c2 c3 c4 = true ->
  is_digit c1 = true /\ is_digit c2 = true /\ is_digit c3 = true /\ is_digit c4 = true.
Proof.
  rewrite year_chars_digits. unfold digits_in_range. cbv zeta.
  rewrite !andb_true_iff. tauto.
Qed.

(** The pattern matches the lower-cased text where it matches the
    text, with the same group. *)
Lemma match_year_lower (before : option ascii) (s : string) :
  match_year (lower_char before) (lower s) = match_year before s.
Proof.
  destruct s as [| c1 [| c2 [| c3 [| c4 rest]]]];
    try (rewrite !match_year_short by reflexivity; reflexivity).
  cbn [lower]. rewrite !match_year_chars.
  rewrite year_chars_to_lower, head_char_lower.
  change (Some (to_lower c1)) with (lower_char (Some c1)).
  change (Some (to_lower c4)) with (lower_char (Some c4)).
  rewrite !word_boundary_lower.
  destruct (year_chars c1 c2 c3 c4) eqn:Hy;
    [| rewrite !andb_false_r; reflexivity].
  destruct (year_chars_are_digits _ _ _ _ Hy) as (H1 & H2 & H3 & H4).
  now rewrite (digit_to_lower _ H1), (digit_to_lower _ H2),
              (digit_to_lower _ H3), (digit_to_lower _ H4).
Qed.

Lemma findall_years_lower (s : string) :
  forall before skip,
  findall_years (lower_char before) skip (lower s) = findall_years before skip s.
Proof.
  induction s as [| c s IH]; intros before skip; [reflexivity |].
  change (lower (String c s)) with (String (to_lower c) (lower s)).
  cbn [findall_years].
  change (String (to_lower c) (lower s)) with (lower (String c s)).
  rewrite match_year_lower.
  change (Some (to_lower c)) with (lower_char (Some c)).
  destruct skip as [| skip]; [| apply IH].
  destruct (match_year before (String c s)); now rewrite IH.
Qed.

Lemma extract_entities_lower (question : string) :
  extract_entities (lower question) = extract_entities question.
Proof.
  unfold extract_entities. rewrite lower_idempotent.
  unfold re_findall_years.
  change (@None ascii) with (lower_char None) at 1.
  rewrite findall_years_lower. reflexivity.
Qed.

(** X2.  Extraction does not depend on letter case: two questions that
    differ only in the case of their letters give the same states,
    crops, years, metrics and intent. *)
Theorem extraction_ignores_case (question question' : string) :
  lower question = lower question' ->
  extract_entities question = extract_entities question'.
Proof.
  intros Hsame.
  rewrite <- (extract_entities_lower question), <- (extract_entities_lower question').
  now rewrite Hsame.
Qed.

Lemma extraction_ignores_case_witness :
  extract_entities "COMPARE Wheat in PUNJAB, 2019-2021"
  = extract_entities "compare wheat in Punjab, 2019-2021".
Proof.
  apply (extraction_ignores_case "COMPARE Wheat in PUNJAB, 2019-2021"
           "compare wheat in Punjab, 2019-2021").
  vm_compute. reflexivity.
Defined.

(** ** The target state and the route of a question *)

Lemma prefix_trans (a b s : string) :
  prefix a b = true -> prefix b s = true -> prefix a s = true.
Proof.
  revert b s. induction a as [| x a IH]; intros b s Hab Hbs.
  - destruct s; reflexivity.
  - destruct b as [| y b]; [discriminate Hab |].
    destruct s as [| z s]; [discriminate Hbs |].
    cbn [prefix] in *.
    destruct (ascii_dec x y) as [-> |]; [| discriminate Hab].
    destruct (ascii_dec y z) as [-> |]; [| discriminate Hbs].
    eapply IH; eassumption.
Qed.

(** A text that contains a keyword contains every prefix of it. *)
Lemma str_contains_prefix (hay a b : string) :
  prefix a b = true -> str_contains hay b = true -> str_contains hay a = true.
Proof.
  intros Hab. induction hay as [| c hay IH]; cbn [str_contains].
  - intros Hb. eapply prefix_trans; eassumption.
  - rewrite !orb_true_iff. intros [Hb | Hb].
    + left. eapply prefix_trans; eassumption.
    + right. now apply IH.
Qed.

(** X3.  The state a policy or trend report is about follows the fixed
    order of the keyword table and not the order of mention: it is
    Rajasthan as soon as the lower-cased question contains "raj", else
    Punjab, Gujarat or Haryana in that order of preference, and Rajasthan
    again when no state keyword occurs; no state is extracted twice. *)
Theorem target_state_by_table_order (question : string) :
  let mentions := str_contains (lower question) in
  target_state (extract_entities question)
  = (if mentions "raj" then "rajasthan"
     else if mentions "punjab" then "punjab"
     else if mentions "gujarat" then "gujarat"
     else if mentions "haryana" then "haryana"
     else "rajasthan") /\
  NoDup (states (extract_entities question)).
Proof.
  cbv zeta. unfold target_state, extract_entities. cbn [states].
  unfold state_keywords. cbn [matched_names any_keyword existsb].
  rewrite !orb_false_r.
  assert (Hraj : (str_contains (lower question) "rajasthan"
                  || str_contains (lower question) "raj")%bool
                 = str_contains (lower question) "raj").
  { destruct (str_contains (lower question) "rajasthan") eqn:E; [| reflexivity].
    symmetry. eapply str_contains_prefix; [| exact E]. reflexivity. }
  rewrite Hraj.
  destruct (str_contains (lower question) "raj"),
           (str_contains (lower question) "punjab"),
           (str_contains (lower question) "gujarat"),
           (str_contains (lower question) "haryana");
    (split; [reflexivity |]);
    repeat (constructor;
            [cbn [In]; intros H;
             repeat (destruct H as [H | H]; [discriminate H |]); exact H |]);
    constructor.
Qed.

(** X4.  The report a question gets is decided by four tests on the
    lower-cased question, in this order: "compare" gives the
    comparison, otherwise "trend" gives the trend report, otherwise any
    of "argument", "promote", "drought", "resistant" gives the policy
    arguments, and otherwise the comparison is the default.  So the two
    fallback words "promote" and "argument" of the dispatcher never
    change the route the detected intent already fixes. *)
Theorem ask_question_route (question : string) :
  let mentions := str_contains (lower question) in
  let entities := extract_entities question in
  ask_question question
  = if mentions "compare"
    then generate_comparison AGRICULTURAL_DATA CLIMATE_DATA entities
    else if mentions "trend"
    then generate_trend_analysis AGRICULTURAL_DATA CLIMATE_DATA entities
    else if (mentions "argument" || mentions "promote"
             || mentions "drought" || mentions "resistant")%bool
    then generate_policy_arguments AGRICULTURAL_DATA CLIMATE_DATA entities
    else generate_comparison AGRICULTURAL_DATA CLIMATE_DATA entities.
Proof.
  cbv zeta. unfold ask_question, generate_answer, intent_is.
  set (entities := extract_entities question).
  assert (Hintent :
    comparison_type entities
    = if str_contains (lower question) "compare" then Some "comparison"
      else if str_contains (lower question) "trend" then Some "trend"
      else if (str_contains (lower question) "argument"
               || str_contains (lower question) "promote")%bool
      then Some "policy_arguments" else None) by reflexivity.
  rewrite Hintent. cbn [existsb].
  destruct (str_contains (lower question) "compare"); [reflexivity |].
  destruct (str_contains (lower question) "trend"); [reflexivity |].
  destruct (str_contains (lower question) "argument"),
           (str_contains (lower question) "promote"),
           (str_contains (lower question) "drought"),
           (str_contains (lower question) "resistant"); reflexivity.
Qed.

(** X5.  The years and the metrics that are extracted never reach an
    answer: entities with the same states, crops and intent get the
    same answer for a question; and the policy arguments do not depend
    on the requested crops either, only on the first state. *)
Theorem answer_ignores_years_and_metrics
    (agricultural_data : dict StateAgriculture) (climate_data : dict StateClimate)
    (entities entities' : Entities) (question : string) :
  states entities = states entities' ->
  (crops entities = crops entities' ->
   comparison_type entities = comparison_type entities' ->
   generate_answer agricultural_data climate_data entities question
   = generate_answer agricultural_data climate_data entities' question) /\
  generate_policy_arguments agricultural_data climate_data entities
  = generate_policy_arguments agricultural_data climate_data entities'.
Proof.
  destruct entities as [sts crs yrs mts intent].
  destruct entities' as [sts' crs' yrs' mts' intent'].
  cbn [states crops comparison_type]. intros <-.
  split; [intros <- <- |]; reflexivity.
Qed.

Lemma answer_ignores_years_and_metrics_witness :
  generate_answer AGRICULTURAL_DATA CLIMATE_DATA
    (extract_entities "Compare rainfall and yield of wheat in Punjab in 2019")
    "Compare wheat in Punjab"
  = generate_answer AGRICULTURAL_DATA CLIMATE_DATA
      (extract_entities "Compare wheat in Punjab") "Compare wheat in Punjab".
Proof.
  apply (answer_ignores_years_and_metrics AGRICULTURAL_DATA CLIMATE_DATA
           (extract_entities "Compare rainfall and yield of wheat in Punjab in 2019")
           (extract_entities "Compare wheat in Punjab")).
  - vm_compute. reflexivity.
  - vm_compute. reflexivity.
  - vm_compute. reflexivity.
Defined.

(** ** The policy arguments *)

(** X6.  For a state that neither table has, the policy generator still
    answers: it reports an average rainfall of 0, the climate zone
    "Unknown", no drought year, no crop stability and the water
    requirement "Unknown" for each of its four crops, and the text
    names no recommended crop. *)
Theorem policy_arguments_for_unknown_state
    (agricultural_data : dict StateAgriculture) (climate_data : dict StateClimate)
    (entities : Entities) :
  dict_get agricultural_data (target_state entities) = None ->
  dict_get climate_data (target_state entities) = None ->
  exists result,
    generate_policy_arguments agricultural_data climate_data entities = Ok result /\
    data_points result
    = PolicyPoints 0%Q [] "Unknown" []
        [("Bajra", "Unknown"); ("Guar", "Unknown");
         ("Rice", "Unknown"); ("Wheat", "Unknown")] /\
    answer result
    = policy_heading ++ title (target_state entities) ++ LF ++ LF
      ++ "Based on integrated analysis of climate and agricultural data from 2018-2022:"
      ++ LF ++ LF
      ++ "### 1. Water Scarcity Adaptation" ++ LF
      ++ "**" ++ title (target_state entities)
      ++ "** receives only **0mm** average annual rainfall (classified as unknown) with recent drought years in []. Drought-resistant crops like Bajra and Guar require **60-70% less water** than water-intensive alternatives like Rice and Wheat."
      ++ LF ++ LF
      ++ "- Average Rainfall: 0mm" ++ LF
      ++ "- Climate Zone: Unknown" ++ LF
      ++ "- Recent Drought Years: None" ++ LF ++ LF
      ++ "### 2. Economic Resilience" ++ LF
      ++ "Drought-resistant crops maintain higher production levels during drought years, providing economic stability to farmers when they need it most."
      ++ LF ++ LF ++ LF
      ++ "### 3. Sustainable Resource Management" ++ LF
      ++ "With groundwater levels in " ++ title (target_state entities)
      ++ " declining rapidly, shifting to low-water crops is essential for long-term agricultural sustainability."
      ++ LF ++ LF ++ LF
      ++ "### Recommended Drought-Resistant Crops:" ++ LF.
Proof.
  intros Hagri Hclim.
  unfold generate_policy_arguments, rainfall_data_of, drought_years_in, climate_zone_in,
    crop_data_of, water_req_data_of.
  rewrite Hagri, Hclim.
  cbn [dict_values map average_or bind app for_each stability_step dict_get fold_left
       dict_get_default dict_set].
  unfold enumerate_from_1.
  cbn [List.length seq combine for_each argument_step Nat.eqb arg_data arg_title
       arg_content bind recommended_step dict_get].
  change cited_sources with (Ok (A := list DataSource)
    [ {| name := "Ministry of Agriculture - Crop Production Statistics";
         url := "https://data.gov.in/resource/all-india-season-wise-crop-production-statistics";
         description := "State-wise and crop-wise production data from 2018-2022" |};
      {| name := "India Meteorological Department - Rainfall Data";
         url := "https://data.gov.in/resource/district-wise-rainfall-normal";
         description := "Historical rainfall patterns and climate data from 2018-2022" |} ]).
  cbn [bind].
  eexists. split; [reflexivity |]. split.
  - cbn [data_points]. reflexivity.
  - cbn [answer]. unfold policy_heading.
    rewrite !append_assoc.
    reflexivity.
Qed.

Lemma policy_arguments_for_unknown_state_witness :
  exists result,
    generate_policy_arguments AGRICULTURAL_DATA CLIMATE_DATA
      (extract_entities "Why promote millet in Gujarat?") = Ok result /\
    data_points result
    = PolicyPoints 0%Q [] "Unknown" []
        [("Bajra", "Unknown"); ("Guar", "Unknown");
         ("Rice", "Unknown"); ("Wheat", "Unknown")].
Proof.
  destruct (policy_arguments_for_unknown_state AGRICULTURAL_DATA CLIMATE_DATA
              (extract_entities "Why promote millet in Gujarat?"))
    as (result & Hresult & Hpoints & _).
  - vm_compute. reflexivity.
  - vm_compute. reflexivity.
  - exists result. split; assumption.
Defined.

Lemma has_key_set_iff {V : Type} (d : dict V) (key key' : string) (v : V) :
  has_key (dict_set d key v) key' <-> key' = key \/ has_key d key'.
Proof.
  split; [| apply has_key_set].
  unfold has_key. destruct (string_dec key key') as [<- | Hne].
  - now left.
  - rewrite dict_get_set_other by exact Hne. now right.
Qed.

Lemma stability_step_keys (crop_data : dict (dict Z)) (drought_years : list string)
    (stability_data stability_data' : dict CropStability) (crop : string) :
  stability_step crop_data drought_years stability_data crop = Ok stability_data' ->
  forall c,
    has_key stability_data' c
    <-> has_key stability_data c
        \/ (c = crop /\
            exists series, dict_get crop_data c = Some series /\ 2 <= len series).
Proof.
  unfold stability_step. intros Hstep c.
  destruct (dict_get crop_data crop) as [production_data |] eqn:Hcrop.
  - destruct (1 <? len (dict_values production_data)) eqn:Hlen.
    + apply Z.ltb_lt in Hlen.
      apply bind_ok in Hstep. destruct Hstep as (variance & _ & Hstep).
      apply bind_ok in Hstep. destruct Hstep as (avg & _ & Hstep).
      apply bind_ok in Hstep. destruct Hstep as (ratio & _ & Hstep).
      injection Hstep as <-. rewrite has_key_set_iff.
      split.
      * intros [-> | H]; [right | now left].
        split; [reflexivity |]. exists production_data. split; [exact Hcrop |].
        unfold len, dict_values in *. rewrite length_map in Hlen. lia.
      * intros [H | [-> _]]; [now right | now left].
    + injection Hstep as <-. apply Z.ltb_ge in Hlen.
      split; [now left |]. intros [H | [-> (series & Hs & Hlen')]]; [exact H |].
      rewrite Hcrop in Hs. injection Hs as <-.
      unfold len, dict_values in *. rewrite length_map in Hlen. lia.
  - injection Hstep as <-.
    split; [now left |]. intros [H | [-> (series & Hs & _)]]; [exact H |].
    rewrite Hcrop in Hs. discriminate Hs.
Qed.

Lemma stability_loop_keys (crop_data : dict (dict Z)) (drought_years : list string)
    (requested : list string) :
  forall stability_data stability_data',
  for_each (stability_step crop_data drought_years) requested stability_data
  = Ok stability_data' ->
  forall c,
    has_key stability_data' c
    <-> has_key stability_data c
        \/ (In c requested /\
            exists series, dict_get crop_data c = Some series /\ 2 <= len series).
Proof.
  induction requested as [| crop requested IH]; intros sd sd' Hrun c; cbn [for_each] in Hrun.
  - injection Hrun as <-. cbn [In]. tauto.
  - apply bind_ok in Hrun. destruct Hrun as (mid & Hstep & Hrest).
    rewrite (IH _ _ Hrest c), (stability_step_keys _ _ _ _ _ Hstep c).
    cbn [In]. split.
    + intros [[H | [-> H]] | [Hin H]]; auto.
    + intros [H | [[<- | Hin] H]]; auto.
Qed.

(** X7.  For tables with figures in the range of floats and whatever
    crops the question asks for, the stability figures of the policy
    arguments cover exactly those of Bajra, Guar, Rice and Wheat for
    which the table of the target state records at least two years; a
    crop outside these four never appears, and a crop with a single
    recorded year is left out instead of being averaged. *)
Theorem policy_stability_covers_fixed_crops
    (agricultural_data : dict StateAgriculture) (climate_data : dict StateClimate)
    (entities : Entities) :
  tables_in_float_range agricultural_data climate_data = true ->
  exists result avg_rainfall drought_years zone stability water,
    generate_policy_arguments agricultural_data climate_data entities = Ok result /\
    data_points result = PolicyPoints avg_rainfall drought_years zone stability water /\
    forall crop,
      has_key stability crop
      <-> In crop ["Bajra"; "Guar"; "Rice"; "Wheat"] /\
          exists series,
            dict_get (crop_data_of agricultural_data (target_state entities)) crop
            = Some series /\
            2 <= len series.
Proof.
  intros _.
  destruct (generate_policy_arguments_shape agricultural_data climate_data entities)
    as (avg_rainfall & stability & text & ? & ? & _ & Hloop & _ & _ & Hresult).
  cbv zeta in Hloop, Hresult.
  eexists. exists avg_rainfall. do 2 eexists. exists stability. eexists.
  split; [exact Hresult |]. split; [reflexivity |].
  intros crop. rewrite (stability_loop_keys _ _ _ _ _ Hloop crop).
  unfold has_key at 1. cbn [dict_get]. tauto.
Qed.

Lemma policy_stability_covers_fixed_crops_witness :
  exists result avg_rainfall drought_years zone stability water,
    generate_policy_arguments AGRICULTURAL_DATA CLIMATE_DATA
      (extract_entities "Why promote cotton in Punjab?") = Ok result /\
    data_points result = PolicyPoints avg_rainfall drought_years zone stability water /\
    forall crop,
      has_key stability crop
      <-> In crop ["Bajra"; "Guar"; "Rice"; "Wheat"] /\
          exists series,
            dict_get (crop_data_of AGRICULTURAL_DATA "punjab") crop = Some series /\
            2 <= len series.
Proof.
  apply (policy_stability_covers_fixed_crops AGRICULTURAL_DATA CLIMATE_DATA
           (extract_entities "Why promote cotton in Punjab?")).
  vm_compute. reflexivity.
Defined.

(** ** What the comparison and the trend report record *)

Lemma dict_has_false {V : Type} (d : dict V) (key : string) :
  dict_has d key = false -> dict_get d key = None.
Proof.
  unfold dict_has. destruct (dict_get d key); [discriminate | reflexivity].
Qed.

Lemma list_contains_cons (x c : string) (l : list string) :
  list_contains (x :: l) c = (String.eqb c x || list_contains l c)%bool.
Proof. reflexivity. Qed.

(** A series that is written over a dictionary when the crop is
    requested and the table has it. *)
Lemma overwrite_step (table : dict (dict Z)) (crops : list string)
    (c crop : string) (base : option (dict Z)) :
  match (if list_contains crops crop then dict_get table crop else None) with
  | Some series => Some series
  | None =>
      match dict_get table c with
      | Some series => if String.eqb c crop then Some series else base
      | None => base
      end
  end
  = match (if list_contains (c :: crops) crop then dict_get table crop else None) with
    | Some series => Some series
    | None => base
    end.
Proof.
  rewrite list_contains_cons.
  destruct (String.eqb_spec crop c) as [-> | Hne].
  - rewrite String.eqb_refl. cbn [orb].
    destruct (list_contains crops c), (dict_get table c); reflexivity.
  - cbn [orb]. assert (Hcc : String.eqb c crop = false) by (apply String.eqb_neq; congruence).
    rewrite Hcc.
    destruct (list_contains crops crop), (dict_get table crop), (dict_get table c);
      reflexivity.
Qed.

Section Payloads.

Variable agricultural_data : dict StateAgriculture.
Variable climate_data : dict StateClimate.

Lemma collect_crop_step_lookup (state crop : string)
    (comparison_data comparison_data' : dict StateComparison) (entry : StateComparison) :
  collect_crop_step agricultural_data state comparison_data crop = Ok comparison_data' ->
  dict_get comparison_data state = Some entry ->
  exists entry',
    dict_get comparison_data' state = Some entry' /\
    rainfall entry' = rainfall entry /\
    climate_zone entry' = climate_zone entry /\
    (forall c,
       dict_get (crop_production entry') c
       = match dict_get (crop_data_of agricultural_data state) crop with
         | Some series =>
             if String.eqb crop c then Some series else dict_get (crop_production entry) c
         | None => dict_get (crop_production entry) c
         end) /\
    (forall s, s <> state -> dict_get comparison_data' s = dict_get comparison_data s).
Proof.
  unfold collect_crop_step. intros Hstep Hentry.
  destruct (dict_has (crop_data_of agricultural_data state) crop) eqn:Hhas.
  - apply dict_has_true in Hhas. destruct Hhas as (series & Hseries).
    destruct (crop_data_of_get _ _ _ _ Hseries) as (agriculture & Hag & Hcrop).
    rewrite (dict_item_get _ _ _ Hag) in Hstep. cbn [bind] in Hstep.
    rewrite (dict_item_get _ _ _ Hcrop) in Hstep. cbn [bind] in Hstep.
    unfold record_production in Hstep.
    rewrite (dict_item_get _ _ _ Hentry) in Hstep. cbn [bind] in Hstep.
    injection Hstep as <-.
    eexists. split; [apply dict_get_set_same |].
    cbn [rainfall climate_zone crop_production].
    split; [reflexivity |]. split; [reflexivity |]. split.
    + intros c. rewrite Hseries.
      destruct (String.eqb_spec crop c) as [<- | Hne].
      * apply dict_get_set_same.
      * now apply dict_get_set_other.
    + intros s Hs. apply dict_get_set_other. congruence.
  - injection Hstep as <-. apply dict_has_false in Hhas.
    exists entry. rewrite Hhas. repeat split; auto.
Qed.

Lemma collect_crops_lookup (state : string) (crops : list string) :
  forall comparison_data comparison_data' entry,
  for_each (collect_crop_step agricultural_data state) crops comparison_data
  = Ok comparison_data' ->
  dict_get comparison_data state = Some entry ->
  exists entry',
    dict_get comparison_data' state = Some entry' /\
    rainfall entry' = rainfall entry /\
    climate_zone entry' = climate_zone entry /\
    (forall c,
       dict_get (crop_production entry') c
       = match (if list_contains crops c
                then dict_get (crop_data_of agricultural_data state) c else None) with
         | Some series => Some series
         | None => dict_get (crop_production entry) c
         end) /\
    (forall s, s <> state -> dict_get comparison_data' s = dict_get comparison_data s).
Proof.
  induction crops as [| crop crops IH]; intros cd cd' entry Hrun Hentry; cbn [for_each] in Hrun.
  - injection Hrun as <-. exists entry. repeat split; auto.
  - apply bind_ok in Hrun. destruct Hrun as (mid & Hstep & Hrest).
    destruct (collect_crop_step_lookup _ _ _ _ _ Hstep Hentry)
      as (e1 & Hget1 & Hrain1 & Hzone1 & Hcrops1 & Hother1).
    destruct (IH _ _ _ Hrest Hget1) as (e2 & Hget2 & Hrain2 & Hzone2 & Hcrops2 & Hother2).
    exists e2. split; [exact Hget2 |].
    split; [congruence |]. split; [congruence |]. split.
    + intros c. rewrite Hcrops2, Hcrops1. apply overwrite_step.
    + intros s Hs. rewrite (Hother2 s Hs). now apply Hother1.
Qed.

Lemma collect_state_step_lookup (crops : list string) (state : string)
    (comparison_data comparison_data' : dict StateComparison) :
  collect_state_step agricultural_data climate_data crops comparison_data state
  = Ok comparison_data' ->
  (exists entry,
     dict_get comparison_data' state = Some entry /\
     comparison_entry_for agricultural_data climate_data crops state entry) /\
  (forall s, s <> state -> dict_get comparison_data' s = dict_get comparison_data s).
Proof.
  unfold collect_state_step. intros Hrun.
  eapply collect_crops_lookup in Hrun; [| apply dict_get_set_same].
  destruct Hrun as (entry & Hget & Hrain & Hzone & Hcrops & Hother).
  cbn [rainfall climate_zone crop_production] in *.
  split.
  - exists entry. split; [exact Hget |].
    split; [exact Hrain |]. split; [exact Hzone |].
    intros c. rewrite Hcrops. cbn [dict_get].
    destruct (list_contains crops c); [| reflexivity].
    destruct (dict_get (crop_data_of agricultural_data state) c); reflexivity.
  - intros s Hs. rewrite (Hother s Hs). apply dict_get_set_other. congruence.
Qed.

Lemma collect_states_lookup (crops states : list string) :
  forall comparison_data comparison_data',
  for_each (collect_state_step agricultural_data climate_data crops) states comparison_data
  = Ok comparison_data' ->
  forall s,
    (In s states ->
     exists entry,
       dict_get comparison_data' s = Some entry /\
       comparison_entry_for agricultural_data climate_data crops s entry) /\
    (~ In s states -> dict_get comparison_data' s = dict_get comparison_data s).
Proof.
  induction states as [| state states IH]; intros cd cd' Hrun s; cbn [for_each] in Hrun.
  - injection Hrun as <-. split; [intros [] | reflexivity].
  - apply bind_ok in Hrun. destruct Hrun as (mid & Hstep & Hrest).
    destruct (collect_state_step_lookup _ _ _ _ Hstep) as (Hstate & Hother).
    destruct (IH _ _ Hrest s) as (Hin & Hout).
    split.
    + intros Hs. destruct (in_dec string_dec s states) as [Hrest_in | Hrest_out];
        [now apply Hin |].
      destruct Hs as [<- | Hs]; [| contradiction].
      rewrite (Hout Hrest_out). exact Hstate.
    + intros Hs. cbn [In] in Hs.
      rewrite Hout by tauto. apply Hother. intros ->. tauto.
Qed.

(** X8.  A comparison that is returned holds one entry for every state
    it was asked about and for no other: the entry carries the rainfall
    and the climate zone the climate table has for the state (none and
    "Unknown" for a state it lacks), and the series of exactly those
    requested crops that the production table has for the state. *)
Theorem comparison_records_requested
    (entities : Entities) (result : Answer) :
  let states := or_default (states entities) ["rajasthan"; "punjab"] in
  let crops := or_default (crops entities) ["Bajra"; "Wheat"] in
  generate_comparison agricultural_data climate_data entities = Ok result ->
  exists comparison_data,
    data_points result = ComparisonPoints comparison_data /\
    forall state,
      (In state states ->
       exists entry,
         dict_get comparison_data state = Some entry /\
         comparison_entry_for agricultural_data climate_data crops state entry) /\
      (~ In state states -> dict_get comparison_data state = None).
Proof.
  intros states crops Hresult. unfold generate_comparison in Hresult.
  fold states crops in Hresult.
  apply bind_ok in Hresult. destruct Hresult as (cd & Hcd & Hresult).
  apply bind_ok in Hresult. destruct Hresult as (text & _ & Hresult).
  apply bind_ok in Hresult. destruct Hresult as (srcs & _ & Hresult).
  injection Hresult as <-. exists cd. split; [reflexivity |].
  intros state. apply (collect_states_lookup _ _ _ _ Hcd state).
Qed.

Lemma collect_trends_lookup (state : string) (crops : list string) :
  forall crop_trends crop_trends',
  for_each (collect_trend_step agricultural_data state) crops crop_trends
  = Ok crop_trends' ->
  forall c,
    dict_get crop_trends' c
    = match (if list_contains crops c
             then dict_get (crop_data_of agricultural_data state) c else None) with
      | Some series => Some series
      | None => dict_get crop_trends c
      end.
Proof.
  induction crops as [| crop crops IH]; intros ct ct' Hrun c; cbn [for_each] in Hrun.
  - injection Hrun as <-. reflexivity.
  - apply bind_ok in Hrun. destruct Hrun as (mid & Hstep & Hrest).
    rewrite (IH _ _ Hrest c), <- overwrite_step.
    destruct (if list_contains crops c
              then dict_get (crop_data_of agricultural_data state) c else None);
      [reflexivity |].
    unfold collect_trend_step in Hstep.
    destruct (dict_has (crop_data_of agricultural_data state) crop) eqn:Hhas.
    + apply dict_has_true in Hhas. destruct Hhas as (series & Hseries).
      destruct (crop_data_of_get _ _ _ _ Hseries) as (agriculture & Hag & Hcrop).
      rewrite (dict_item_get _ _ _ Hag) in Hstep. cbn [bind] in Hstep.
      rewrite (dict_item_get _ _ _ Hcrop) in Hstep. cbn [bind] in Hstep.
      injection Hstep as <-. rewrite Hseries.
      destruct (String.eqb_spec crop c) as [<- | Hne].
      * apply dict_get_set_same.
      * now apply dict_get_set_other.
    + injection Hstep as <-. apply dict_has_false in Hhas. now rewrite Hhas.
Qed.

(** X9.  A trend report that is returned carries the rainfall series of
    its state and, as crop trends, the series of exactly those requested
    crops that the production table has for the state. *)
Theorem trend_records_requested (entities : Entities) (result : Answer) :
  let state := target_state entities in
  let crops := or_default (crops entities) ["Bajra"; "Wheat"] in
  generate_trend_analysis agricultural_data climate_data entities = Ok result ->
  exists crop_trends,
    data_points result = TrendPoints (rainfall_data_of climate_data state) crop_trends /\
    forall crop,
      dict_get crop_trends crop
      = if list_contains crops crop
        then dict_get (crop_data_of agricultural_data state) crop
        else None.
Proof.
  intros state crops Hresult. unfold generate_trend_analysis in Hresult.
  fold state crops in Hresult.
  apply bind_ok in Hresult. destruct Hresult as (ct & Hct & Hresult).
  apply bind_ok in Hresult. destruct Hresult as (rain & _ & Hresult).
  apply bind_ok in Hresult. destruct Hresult as (text & _ & Hresult).
  apply bind_ok in Hresult. destruct Hresult as (srcs & _ & Hresult).
  injection Hresult as <-. exists ct. split; [reflexivity |].
  intros crop. rewrite (collect_trends_lookup _ _ _ _ Hct crop). cbn [dict_get].
  destruct (list_contains crops crop); [| reflexivity].
  destruct (dict_get (crop_data_of agricultural_data state) crop); reflexivity.
Qed.

End Payloads.

Lemma comparison_records_requested_witness :
  exists result comparison_data,
    generate_comparison AGRICULTURAL_DATA CLIMATE_DATA
      (extract_entities "Compare cotton and rice in Punjab and Gujarat") = Ok result /\
    data_points result = ComparisonPoints comparison_data /\
    forall state,
      (In state ["punjab"; "gujarat"] ->
       exists entry,
         dict_get comparison_data state = Some entry /\
         comparison_entry_for AGRICULTURAL_DATA CLIMATE_DATA ["Rice"; "Cotton"] state entry) /\
      (~ In state ["punjab"; "gujarat"] -> dict_get comparison_data state = None).
Proof.
  eassert (Hresult : generate_comparison AGRICULTURAL_DATA CLIMATE_DATA
                       (extract_entities "Compare cotton and rice in Punjab and Gujarat")
                     = Ok _) by (vm_compute; reflexivity).
  destruct (comparison_records_requested AGRICULTURAL_DATA CLIMATE_DATA _ _ Hresult)
    as (comparison_data & Hpoints & Hstates).
  eexists. exists comparison_data.
  split; [exact Hresult |]. split; [exact Hpoints | exact Hstates].
Defined.

Lemma trend_records_requested_witness :
  exists result crop_trends,
    generate_trend_analysis AGRICULTURAL_DATA CLIMATE_DATA
      (extract_entities "Trend of cotton and guar in Punjab") = Ok result /\
    data_points result
    = TrendPoints (rainfall_data_of CLIMATE_DATA "punjab") crop_trends /\
    forall crop,
      dict_get crop_trends crop
      = if list_contains ["Cotton"; "Guar"] crop
        then dict_get (crop_data_of AGRICULTURAL_DATA "punjab") crop
        else None.
Proof.
  eassert (Hresult : generate_trend_analysis AGRICULTURAL_DATA CLIMATE_DATA
                       (extract_entities "Trend of cotton and guar in Punjab")
                     = Ok _) by (vm_compute; reflexivity).
  destruct (trend_records_requested AGRICULTURAL_DATA CLIMATE_DATA _ _ Hresult)
    as (crop_trends & Hpoints & Hcrops).
  eexists. exists crop_trends.
  split; [exact Hresult |]. split; [exact Hpoints | exact Hcrops].
Defined.

(** ** Short and empty series *)

Lemma crop_trend_step_single (crop_data : dict (dict Z)) (crop year : string) (value : Z) :
  dict_get crop_data crop = Some [(year, value)] ->
  forall answer,
    crop_trend_step crop_data answer crop = Ok (answer ++ crop_trend_line crop 0%Q).
Proof.
  intros Hget answer. unfold crop_trend_step. rewrite Hget.
  unfold values_by_year, dict_keys. cbn [map fst sorted fold_right insert_sorted for_each].
  unfold dict_item. cbn [dict_get]. rewrite String.eqb_refl. cbn [bind app].
  unfold linear_trend. cbn [last_item first_item bind].
  rewrite Z.sub_diag. reflexivity.
Qed.

(** X10.  In a trend report that is returned, the climate section is
    left out when the state has fewer than two rainfall values, as for
    a state the climate table lacks; the production trend has no such
    guard, and a requested crop with a single recorded year is printed
    with a trend of 0, as decreasing by 0.0. *)
Theorem trend_of_short_series
    (agricultural_data : dict StateAgriculture) (climate_data : dict StateClimate)
    (entities : Entities) (result : Answer) :
  let state := target_state entities in
  let crops := or_default (crops entities) ["Bajra"; "Wheat"] in
  generate_trend_analysis agricultural_data climate_data entities = Ok result ->
  (len (rainfall_data_of climate_data state) <= 1 ->
   exists crop_text,
     answer result
     = trend_heading ++ title state ++ " (2018-2022)" ++ LF ++ LF
       ++ "### Crop Production Trends" ++ LF ++ crop_text) /\
  (forall crop year value,
     In crop crops ->
     dict_get (crop_data_of agricultural_data state) crop = Some [(year, value)] ->
     exists before after,
       answer result
       = before ++ "- **" ++ crop ++ "**: " ++ icon_down
         ++ " Decreasing by 0.0 thousand tonnes/year" ++ LF ++ after).
Proof.
  intros state crops Hresult.
  destruct (trend_report_parts _ _ _ _ Hresult) as (rain_answer & Hrain & Hloop).
  fold state crops in Hrain, Hloop.
  split.
  - intros Hshort. unfold rainfall_trend_text in Hrain.
    assert (Hlen : (1 <? len (dict_values (rainfall_data_of climate_data state))) = false).
    { apply Z.ltb_ge. unfold len, dict_values in *. now rewrite length_map. }
    rewrite Hlen in Hrain.
    assert (Hrain' : rain_answer
                     = trend_heading ++ title state ++ " (2018-2022)" ++ LF ++ LF)
      by congruence.
    apply (for_each_extends _ (crop_trend_step_extends _)) in Hloop.
    destruct Hloop as (crop_text & ->).
    exists crop_text. rewrite Hrain', !append_assoc. reflexivity.
  - intros crop year value Hin Hsingle.
    destruct (for_each_emits _ crop (crop_trend_line crop 0%Q)
                (crop_trend_step_extends _)
                (crop_trend_step_single _ _ _ _ Hsingle) _ Hin _ _ Hloop)
      as (before & after & ->).
    exists before, after. unfold crop_trend_line, direction.
    change (is_positive 0) with false. cbv iota.
    change (fmt_1f (Qabs 0)) with "0.0".
    rewrite !append_assoc. reflexivity.
Qed.

Lemma trend_of_short_series_witness :
  exists result,
    generate_trend_analysis AGRICULTURAL_DATA CLIMATE_DATA
      (extract_entities "Wheat trend in Haryana") = Ok result /\
    exists crop_text,
      answer result
      = trend_heading ++ title "haryana" ++ " (2018-2022)" ++ LF ++ LF
        ++ "### Crop Production Trends" ++ LF ++ crop_text.
Proof.
  eassert (Hresult : generate_trend_analysis AGRICULTURAL_DATA CLIMATE_DATA
                       (extract_entities "Wheat trend in Haryana") = Ok _)
    by (vm_compute; reflexivity).
  eexists. split; [exact Hresult |].
  apply (proj1 (trend_of_short_series AGRICULTURAL_DATA CLIMATE_DATA _ _ Hresult)).
  vm_compute. discriminate.
Defined.

(** A loop raises [e] when one of its elements raises [e] in every
    state and no element raises anything else. *)
Lemma for_each_raises {A S : Type} (body : S -> A -> result S) (e : exn)
    (l : list A) (culprit : A) :
  (forall s x, In x l -> (exists s', body s x = Ok s') \/ body s x = Raise e) ->
  In culprit l ->
  (forall s, body s culprit = Raise e) ->
  forall s, for_each body l s = Raise e.
Proof.
  induction l as [| x l IH]; intros Hbody Hin Hculprit s; [destruct Hin |].
  cbn [for_each].
  destruct (Hbody s x (or_introl eq_refl)) as [(s' & Hok) | Hraise].
  - rewrite Hok. cbn [bind].
    destruct Hin as [-> | Hin]; [rewrite Hculprit in Hok; discriminate Hok |].
    apply IH; try assumption. intros s0 y Hy. apply Hbody. now right.
  - rewrite Hraise. reflexivity.
Qed.

Lemma for_each_ok_or_raises {A S : Type} (body : S -> A -> result S) (e : exn)
    (l : list A) :
  (forall s x, In x l -> (exists s', body s x = Ok s') \/ body s x = Raise e) ->
  forall s, (exists s', for_each body l s = Ok s') \/ for_each body l s = Raise e.
Proof.
  induction l as [| x l IH]; intros Hbody s; cbn [for_each]; [left; now eexists |].
  destruct (Hbody s x (or_introl eq_refl)) as [(s' & Hok) | Hraise].
  - rewrite Hok. cbn [bind]. apply IH. intros s0 y Hy. apply Hbody. now right.
  - rewrite Hraise. now right.
Qed.

Lemma list_contains_in (l : list string) (x : string) :
  In x l -> list_contains l x = true.
Proof.
  intros Hin. unfold list_contains. apply existsb_exists.
  exists x. split; [exact Hin | apply String.eqb_refl].
Qed.

Lemma dict_get_in {V : Type} (d : dict V) (key : string) (v : V) :
  dict_get d key = Some v -> In (key, v) d.
Proof.
  induction d as [| [k w] d IH]; cbn [dict_get]; [discriminate |].
  destruct (String.eqb k key) eqn:E.
  - apply String.eqb_eq in E. subst k. intros H. injection H as ->. now left.
  - intros H. right. now apply IH.
Qed.

Lemma crop_trend_step_ok_or_raises (crop_data : dict (dict Z)) (answer crop : string) :
  (exists answer', crop_trend_step crop_data answer crop = Ok answer')
  \/ crop_trend_step crop_data answer crop = Raise IndexError.
Proof.
  destruct (dict_get crop_data crop) as [[| item series] |] eqn:Hget.
  - right. unfold crop_trend_step. rewrite Hget. reflexivity.
  - left. destruct (crop_trend_step_line _ _ _ Hget) as (? & ? & _ & _ & Hline);
      [discriminate |].
    rewrite Hline. now eexists.
  - left. unfold crop_trend_step. rewrite Hget. now eexists.
Qed.

(** X11.  The production trend has no guard for an empty series: for
    tables with figures in the range of floats, when the table of the
    target state records a requested crop with no year at all, the trend
    generator raises IndexError instead of answering. *)
Theorem trend_of_empty_series_raises
    (agricultural_data : dict StateAgriculture) (climate_data : dict StateClimate)
    (entities : Entities) (crop : string) :
  tables_in_float_range agricultural_data climate_data = true ->
  In crop (or_default (crops entities) ["Bajra"; "Wheat"]) ->
  dict_get (crop_data_of agricultural_data (target_state entities)) crop = Some [] ->
  generate_trend_analysis agricultural_data climate_data entities = Raise IndexError.
Proof.
  intros _ Hin Hempty. unfold generate_trend_analysis.
  destruct (for_each_total
              (collect_trend_step agricultural_data (target_state entities))
              (or_default (crops entities) ["Bajra"; "Wheat"])
              (fun s x _ => collect_trend_step_total agricultural_data _ x s) [])
    as (crop_trends & ->).
  cbn [bind].
  destruct (rainfall_trend_text_total climate_data (target_state entities)
              ("## Trend Analysis for " ++ title (target_state entities)
               ++ " (2018-2022)" ++ LF ++ LF))
    as (rain & ->).
  cbn [bind].
  rewrite (for_each_raises _ IndexError _ crop); [reflexivity | | exact Hin |].
  - intros s x _. apply crop_trend_step_ok_or_raises.
  - intros s. unfold crop_trend_step. rewrite Hempty. reflexivity.
Qed.

Lemma trend_of_empty_series_raises_witness :
  generate_trend_analysis
    [("punjab", {| crops_of := [("Wheat", [])]; water_requirements_of := [] |})]
    CLIMATE_DATA
    {| states := ["punjab"]; crops := ["Wheat"]; years := []; metrics := [];
       comparison_type := Some "trend" |}
  = Raise IndexError.
Proof.
  apply (trend_of_empty_series_raises _ _ _ "Wheat").
  - vm_compute. reflexivity.
  - vm_compute. left. reflexivity.
  - vm_compute. reflexivity.
Defined.

Section EmptySeries.

Variable agricultural_data : dict StateAgriculture.
Variable climate_data : dict StateClimate.

Lemma crop_line_step_ok_or_raises (state answer crop : string) (production : dict Z) :
  dict_get (crop_data_of agricultural_data state) crop = Some production ->
  (exists answer',
     crop_line_step agricultural_data state answer (crop, production) = Ok answer')
  \/ crop_line_step agricultural_data state answer (crop, production)
     = Raise ZeroDivisionError.
Proof.
  intros Hget. unfold crop_line_step.
  destruct (crop_data_of_get _ _ _ _ Hget) as (agriculture & Hag & _).
  unfold truediv. destruct (Qeq_bool (inject_Z (len production)) 0).
  - now right.
  - left. cbn [bind]. rewrite (dict_item_get _ _ _ Hag). cbn [bind]. now eexists.
Qed.

Lemma state_section_step_ok_or_raises (comparison_data : dict StateComparison)
    (answer state : string) :
  from_table agricultural_data comparison_data ->
  has_key comparison_data state ->
  (exists answer',
     state_section_step agricultural_data comparison_data answer state = Ok answer')
  \/ state_section_step agricultural_data comparison_data answer state
     = Raise ZeroDivisionError.
Proof.
  intros Hft Hkey. unfold state_section_step, has_key in *.
  destruct (dict_get comparison_data state) as [entry |] eqn:Hentry; [| congruence].
  rewrite (dict_item_get _ _ _ Hentry). cbn [bind].
  destruct (average_or_total (dict_values (rainfall entry)) 0%Q) as (avg & ->).
  cbn [bind].
  match goal with
  | |- context [for_each ?body (crop_production entry) ?start] =>
      destruct (for_each_ok_or_raises body ZeroDivisionError (crop_production entry))
        with (s := start) as [(text & ->) | ->]
  end.
  - intros text [crop production] Hin.
    apply crop_line_step_ok_or_raises. eapply Hft; eassumption.
  - left. cbn [bind]. now eexists.
  - now right.
Qed.

(** X12.  The comparison averages every recorded series without a
    guard: for tables with figures in the range of floats, when a
    requested state's table records a requested crop with no year at
    all, the comparison generator raises ZeroDivisionError instead of
    answering. *)
Theorem comparison_of_empty_series_raises (entities : Entities) (state crop : string) :
  tables_in_float_range agricultural_data climate_data = true ->
  In state (or_default (states entities) ["rajasthan"; "punjab"]) ->
  In crop (or_default (crops entities) ["Bajra"; "Wheat"]) ->
  dict_get (crop_data_of agricultural_data state) crop = Some [] ->
  generate_comparison agricultural_data climate_data entities = Raise ZeroDivisionError.
Proof.
  intros _ Hstate Hcrop Hempty. unfold generate_comparison.
  destruct (collect_states_ok agricultural_data climate_data
              (or_default (crops entities) ["Bajra"; "Wheat"])
              (or_default (states entities) ["rajasthan"; "punjab"]) [])
    as (cd & Hcd & Hft & Hkeys).
  { intros s e c p Hget. discriminate Hget. }
  rewrite Hcd. cbn [bind].
  rewrite (for_each_raises _ ZeroDivisionError _ state); [reflexivity | | exact Hstate |].
  - intros s x Hx. apply state_section_step_ok_or_raises; [exact Hft |].
    apply Hkeys. now left.
  - intros s.
    destruct (proj1 (collect_states_lookup agricultural_data climate_data _ _ _ _ Hcd state)
                Hstate)
      as (entry & Hentry & _ & _ & Hcrops).
    unfold state_section_step.
    rewrite (dict_item_get _ _ _ Hentry). cbn [bind].
    destruct (average_or_total (dict_values (rainfall entry)) 0%Q) as (avg & ->).
    cbn [bind].
    rewrite (for_each_raises _ ZeroDivisionError _ (crop, @nil (string * Z)));
      [reflexivity | | |].
    + intros text [c production] Hin.
      apply crop_line_step_ok_or_raises. eapply Hft; eassumption.
    + apply dict_get_in. rewrite Hcrops, (list_contains_in _ _ Hcrop). exact Hempty.
    + intros text. reflexivity.
Qed.

End EmptySeries.

Lemma comparison_of_empty_series_raises_witness :
  generate_comparison
    [("punjab", {| crops_of := [("Wheat", [])]; water_requirements_of := [] |})]
    CLIMATE_DATA
    {| states := ["punjab"]; crops := ["Wheat"]; years := []; metrics := [];
       comparison_type := Some "comparison" |}
  = Raise ZeroDivisionError.
Proof.
  apply (comparison_of_empty_series_raises _ _ _ "punjab" "Wheat").
  - vm_compute. reflexivity.
  - vm_compute. left. reflexivity.
  - vm_compute. left. reflexivity.
  - vm_compute. reflexivity.
Defined.

(** ** What is extracted, and only that *)

Lemma matched_names_in (table : dict (list string)) (question_lower canonical : string) :
  In canonical (matched_names table question_lower)
  <-> exists keywords,
        In (canonical, keywords) table /\ any_keyword question_lower keywords = true.
Proof.
  induction table as [| [k kws] table IH]; cbn [matched_names].
  - split; [intros [] | intros (? & [] & _)].
  - destruct (any_keyword question_lower kws) eqn:E; cbn [In]; rewrite ?IH; split.
    + intros [<- | (keywords & Hin & Hany)].
      * exists kws. split; [now left | exact E].
      * exists keywords. split; [now right | exact Hany].
    + intros (keywords & [Heq | Hin] & Hany).
      * injection Heq as <- <-. now left.
      * right. now exists keywords.
    + intros (keywords & Hin & Hany). exists keywords. split; [now right | exact Hany].
    + intros (keywords & [Heq | Hin] & Hany).
      * injection Heq as <- <-. congruence.
      * now exists keywords.
Qed.

(** X13.  A state or a crop is extracted exactly when one of the
    keywords of its table entry occurs somewhere in the lower-cased
    question, inside a longer word or not; nothing else is ever put in
    the two lists. *)
Theorem extracted_iff_keyword (question name : string) :
  let occurs table :=
    exists keywords keyword,
      In (name, keywords) table /\ In keyword keywords /\
      str_contains (lower question) keyword = true in
  (In name (states (extract_entities question)) <-> occurs state_keywords) /\
  (In name (crops (extract_entities question)) <-> occurs crop_keywords).
Proof.
  cbv zeta. unfold extract_entities. cbn [states crops].
  rewrite !matched_names_in. unfold any_keyword.
  split; split.
  - intros (keywords & Hin & Hany). apply existsb_exists in Hany.
    destruct Hany as (keyword & Hk & Hocc). now exists keywords, keyword.
  - intros (keywords & keyword & Hin & Hk & Hocc). exists keywords.
    split; [exact Hin |]. apply existsb_exists. now exists keyword.
  - intros (keywords & Hin & Hany). apply existsb_exists in Hany.
    destruct Hany as (keyword & Hk & Hocc). now exists keywords, keyword.
  - intros (keywords & keyword & Hin & Hk & Hocc). exists keywords.
    split; [exact Hin |]. apply existsb_exists. now exists keyword.
Qed.

Lemma extracted_iff_keyword_witness :
  In "Rice" (crops (extract_entities "What is the price of wheat?")).
Proof.
  apply (proj2 (proj2 (extracted_iff_keyword "What is the price of wheat?" "Rice"))).
  exists ["rice"; "paddy"], "rice".
  split; [vm_compute; tauto |].
  split; [left; reflexivity |].
  vm_compute. reflexivity.
Defined.
